(** * Timetable randomizer front end: the class form and its pre-submission checks

    A shallow embedding of the two revisions of the [ClassForm] component
    (the original [frontend/src/components/ClassForm.tsx] and its hardened
    revision with [validateInputs]) together with the data types of
    [types.ts], and the properties of the capacity pre-check, of input
    validation and of the form handlers. *)

From Stdlib Require Import ZArith List Bool Ascii String Lia.
From stdpp Require Import base tactics option list strings pretty gmap.

Local Open Scope Z_scope.

(** ** The JavaScript values the form computes with *)

Module Js.

(** A [number] as this form meets it: the result of [parseInt] (an integer
    or [NaN]), an integer literal or field, and sums and products of these.
    Fractions and infinities never arise; integers are exact (the form's
    values stay far below 2^53). *)
Inductive number : Type :=
| NaN
| Num (z : Z).

#[global] Instance number_eq_dec : EqDecision number.
Proof. solve_decision. Defined.

(** [isNaN(x)] *)
Definition isNaN (x : number) : bool :=
  match x with NaN => true | Num _ => false end.

(** [ToBoolean] on numbers: [0] and [NaN] are falsy. *)
Definition truthy (x : number) : bool :=
  match x with NaN => false | Num z => negb (z =? 0) end.

(** [x || d] on numbers. *)
Definition or_else (x d : number) : number :=
  if truthy x then x else d.

Definition add (x y : number) : number :=
  match x, y with Num a, Num b => Num (a + b) | _, _ => NaN end.

Definition sub (x y : number) : number :=
  match x, y with Num a, Num b => Num (a - b) | _, _ => NaN end.

Definition mul (x y : number) : number :=
  match x, y with Num a, Num b => Num (a * b) | _, _ => NaN end.

(** [x < y] and [x > y]: false as soon as one side is [NaN]. *)
Definition lt (x y : number) : bool :=
  match x, y with Num a, Num b => a <? b | _, _ => false end.

Definition gt (x y : number) : bool := lt y x.

(** [x === y] on numbers: [NaN] equals nothing. *)
Definition strict_eq (x y : number) : bool :=
  match x, y with Num a, Num b => a =? b | _, _ => false end.

(** [Math.min(x, y)] and [Math.max(x, y)]: [NaN] is contagious. *)
Definition Math_min (x y : number) : number :=
  match x, y with Num a, Num b => Num (Z.min a b) | _, _ => NaN end.

Definition Math_max (x y : number) : number :=
  match x, y with Num a, Num b => Num (Z.max a b) | _, _ => NaN end.

(** [String(x)], as a template literal interpolates a number. *)
Definition toString (x : number) : string :=
  match x with NaN => "NaN" | Num z => pretty z end.

(** [arr.length] as a number. *)
Definition length_of {A} (l : list A) : number := Num (Z.of_nat (length l)).

(** A text the user types (a class name, a teacher) is a sequence of
    UTF-16 code units, each a number below 65536 (a larger number stands
    for no code unit and counts as no white space). Identifiers, property
    names and messages, which the program builds from ASCII literals and
    decimal numbers, are kept as [string]. *)
Definition text : Type := list N.

(** The code units of an ASCII literal. *)
Definition utf16 (literal : string) : text :=
  map N_of_ascii (list_ascii_of_string literal).

(** The code units that [trim] strips: the white space of the language
    (TAB, VT, FF, SP, NBSP, ZWNBSP and the space separators U+1680,
    U+2000..U+200A, U+202F, U+205F, U+3000) and its line terminators (LF,
    CR, U+2028, U+2029). *)
Definition is_white_space (u : N) : bool :=
  ((9 <=? u) && (u <=? 13) || (u =? 32) || (u =? 160) || (u =? 5760)
   || (8192 <=? u) && (u <=? 8202) || (u =? 8232) || (u =? 8233)
   || (u =? 8239) || (u =? 8287) || (u =? 12288) || (u =? 65279))%N.

Arguments is_white_space : simpl never.

(** [s.trimStart()] *)
Fixpoint trimStart (s : text) : text :=
  match s with
  | [] => []
  | u :: s' => if is_white_space u then trimStart s' else s
  end.

(** [s.trimEnd()] *)
Fixpoint trimEnd (s : text) : text :=
  match s with
  | [] => []
  | u :: s' =>
      match trimEnd s' with
      | [] => if is_white_space u then [] else [u]
      | t => u :: t
      end
  end.

(** [s.trim()] *)
Definition trim (s : text) : text := trimEnd (trimStart s).

(** [!s] on a text and on a string: only the empty one is falsy. *)
Definition not_text (s : text) : bool :=
  match s with [] => true | _ :: _ => false end.

Definition not_str (s : string) : bool :=
  match s with EmptyString => true | String _ _ => false end.

(** [s.length], in code units. *)
Definition text_length (s : text) : number := Num (Z.of_nat (length s)).

(** [ToBoolean] on a [number | null] field. *)
Definition truthy_opt (x : option number) : bool :=
  match x with None => false | Some n => truthy n end.

End Js.

Import Js.

(** ** [types.ts] *)

Inductive Day : Type := MONDAY | TUESDAY | WEDNESDAY | THURSDAY | FRIDAY.

Record ClassInput : Type := mkClass {
  id : string;
  name : text;
  teacher : text;
  periods_per_week : number;
  duration : number;
  color : option string
}.

Record TimetableConstraints : Type := mkConstraints {
  max_classes_per_day : number;
  periods_per_day : number;
  days_per_week : list Day;
  lunch_break_period : option number;
  prefer_morning : bool;
  prefer_afternoon : bool
}.

(** The result of pressing "Generate": either the handler returns early
    with an error message (and, in the revision, the validation errors it
    stored), or it goes on to [onSubmit] and to [axios.post] on
    [/api/generate] with the given body. *)
Inductive outcome : Type :=
| Rejected (error : string) (validationErrors : gmap string string)
| Posted (classes : list ClassInput) (constraints : TimetableConstraints).

Definition posted (o : outcome) : bool :=
  match o with Posted _ _ => true | Rejected _ _ => false end.

(** The state both revisions start from. *)
Definition initial_classes : list ClassInput :=
  [ mkClass "1" [] [] (Num 5) (Num 1) None ].

Definition initial_constraints : TimetableConstraints :=
  mkConstraints (Num 8) (Num 8)
    [MONDAY; TUESDAY; WEDNESDAY; THURSDAY; FRIDAY]
    (Some (Num 4)) false false.

(** The object spreads [{ ...constraints, field: v }] of the handlers. *)
Definition with_periods_per_day (c : TimetableConstraints) (v : number) :=
  mkConstraints (max_classes_per_day c) v (days_per_week c)
    (lunch_break_period c) (prefer_morning c) (prefer_afternoon c).

Definition with_lunch_break_period (c : TimetableConstraints) (v : option number) :=
  mkConstraints (max_classes_per_day c) (periods_per_day c) (days_per_week c)
    v (prefer_morning c) (prefer_afternoon c).

Definition with_preferences (c : TimetableConstraints) (morning afternoon : bool) :=
  mkConstraints (max_classes_per_day c) (periods_per_day c) (days_per_week c)
    (lunch_break_period c) morning afternoon.

(** The [(field, value)] pairs with which the form's inputs call
    [updateClass]. *)
Inductive field_value : Type :=
| name_value (value : text)
| teacher_value (value : text)
| periods_per_week_value (value : number).

Definition field_name (fv : field_value) : string :=
  match fv with
  | name_value _ => "name"
  | teacher_value _ => "teacher"
  | periods_per_week_value _ => "periods_per_week"
  end.

(** [{ ...c, [field]: value }] *)
Definition with_field (c : ClassInput) (fv : field_value) : ClassInput :=
  match fv with
  | name_value v =>
      mkClass (id c) v (teacher c) (periods_per_week c) (duration c) (color c)
  | teacher_value v =>
      mkClass (id c) (name c) v (periods_per_week c) (duration c) (color c)
  | periods_per_week_value v =>
      mkClass (id c) (name c) (teacher c) v (duration c) (color c)
  end.

(** The class [addClass] appends, under its new identifier. *)
Definition new_class (newId : string) : ClassInput :=
  mkClass newId [] [] (Num 5) (Num 1) None.

(** ** The original form, [frontend/src/components/ClassForm.tsx] *)

Module Original.

(** [classes.filter(c => !c.name || !c.teacher)] *)
Definition emptyClasses (classes : list ClassInput) : list ClassInput :=
  List.filter (fun c => not_text (name c) || not_text (teacher c)) classes.

(** [handleGenerate], up to the request it sends; this revision keeps no
    per-field validation errors. *)
Definition handleGenerate (classes : list ClassInput)
    (constraints : TimetableConstraints) : outcome :=
  if (0 <? length (emptyClasses classes))%nat then
    Rejected "Please fill in all class names and teachers" ∅
  else Posted classes constraints.

(** The state of the form and its handlers. *)

Record form : Type := mkForm {
  classes : list ClassInput;
  constraints : TimetableConstraints
}.

Definition initial : form := mkForm initial_classes initial_constraints.

(** [addClass]: the new identifier is the length of the list plus one. *)
Definition addClass (f : form) : form :=
  let newId := pretty (Z.of_nat (length (classes f)) + 1) in
  mkForm (classes f ++ [new_class newId]) (constraints f).

Definition removeClass (i : string) (f : form) : form :=
  mkForm (List.filter (fun c => negb (String.eqb (id c) i)) (classes f))
         (constraints f).

Definition updateClass (i : string) (fv : field_value) (f : form) : form :=
  mkForm (map (fun c => if String.eqb (id c) i then with_field c fv else c)
              (classes f))
         (constraints f).

(** What the user can do to the form. [val] is [parseInt(e.target.value)]
    of a number input, [checked] is [e.target.checked]. *)
Inductive event : Type :=
| AddClass
| RemoveClass (i : string)
| ChangeName (i : string) (value : text)
| ChangeTeacher (i : string) (value : text)
| ChangePeriodsPerWeek (i : string) (val : number)
| ChangePeriodsPerDay (val : number)
| ChangeLunchBreak (val : number)
| CheckPreferMorning (checked : bool)
| CheckPreferAfternoon (checked : bool).

(** One event, through the [onClick] or [onChange] of its element. The
    remove button is rendered only while [classes.length > 1]. *)
Definition step (f : form) (e : event) : form :=
  match e with
  | AddClass => addClass f
  | RemoveClass i =>
      if (1 <? length (classes f))%nat then removeClass i f else f
  | ChangeName i v => updateClass i (name_value v) f
  | ChangeTeacher i v => updateClass i (teacher_value v) f
  | ChangePeriodsPerWeek i val => updateClass i (periods_per_week_value val) f
  | ChangePeriodsPerDay val =>
      mkForm (classes f) (with_periods_per_day (constraints f) val)
  | ChangeLunchBreak val =>
      mkForm (classes f)
        (with_lunch_break_period (constraints f)
           (if truthy val then Some val else None))
  | CheckPreferMorning checked =>
      mkForm (classes f) (with_preferences (constraints f) checked false)
  | CheckPreferAfternoon checked =>
      mkForm (classes f) (with_preferences (constraints f) false checked)
  end.

Definition run (es : list event) : form := fold_left step es initial.

End Original.

(** ** The revised form: capacity figures, [validateInputs], [handleGenerate], handlers *)

Module Revised.

(** [totalPeriodsNeeded]: the [reduce] over the classes, from [0]. *)
Definition totalPeriodsNeeded (classes : list ClassInput) : number :=
  fold_left
    (fun sum cls =>
       let periodsPerWeek := or_else (periods_per_week cls) (Num 0) in
       let duration := or_else (duration cls) (Num 1) in
       add sum (mul periodsPerWeek duration))
    classes (Num 0).

(** [totalPeriodsAvailable] *)
Definition totalPeriodsAvailable (constraints : TimetableConstraints) : number :=
  sub (mul (length_of (days_per_week constraints)) (periods_per_day constraints))
      (if truthy_opt (lunch_break_period constraints)
       then length_of (days_per_week constraints)
       else Num 0).

(** The property name [`class-${id}-${field}`]. *)
Definition class_key (id field : string) : string :=
  "class-" +:+ id +:+ "-" +:+ field.

(** The four groups of tests of the [classes.forEach] callback of
    [validateInputs], each on the [errors] object built so far. *)
Definition check_name (cls : ClassInput)
    (errors : gmap string string) : gmap string string :=
  if not_text (name cls) || not_text (trim (name cls)) then
    <[class_key (id cls) "name" := "Class name is required"]> errors
  else if gt (text_length (trim (name cls))) (Num 100) then
    <[class_key (id cls) "name" := "Class name too long (max 100 chars)"]> errors
  else errors.

Definition check_teacher (cls : ClassInput)
    (errors : gmap string string) : gmap string string :=
  if not_text (teacher cls) || not_text (trim (teacher cls)) then
    <[class_key (id cls) "teacher" := "Teacher name is required"]> errors
  else if gt (text_length (trim (teacher cls))) (Num 100) then
    <[class_key (id cls) "teacher" := "Teacher name too long (max 100 chars)"]> errors
  else errors.

Definition check_periods (cls : ClassInput)
    (errors : gmap string string) : gmap string string :=
  if lt (periods_per_week cls) (Num 1) || gt (periods_per_week cls) (Num 40) then
    <[class_key (id cls) "periods" := "Periods must be between 1-40"]> errors
  else errors.

Definition check_duration (constraints : TimetableConstraints) (cls : ClassInput)
    (errors : gmap string string) : gmap string string :=
  let errors :=
    if lt (duration cls) (Num 1) || gt (duration cls) (Num 4) then
      <[class_key (id cls) "duration" := "Duration must be between 1-4"]> errors
    else errors in
  if gt (duration cls) (periods_per_day constraints) then
    <[class_key (id cls) "duration" :=
        "Duration cannot exceed periods per day ("
          +:+ toString (periods_per_day constraints) +:+ ")"]> errors
  else errors.

(** The callback itself. *)
Definition validate_class (constraints : TimetableConstraints)
    (errors : gmap string string) (cls : ClassInput) : gmap string string :=
  check_duration constraints cls
    (check_periods cls (check_teacher cls (check_name cls errors))).

(** [new Set(ids).size !== ids.length] *)
Definition has_duplicate_ids (ids : list string) : bool :=
  negb (Nat.eqb (size (list_to_set ids : gset string)) (length ids)).

Definition check_duplicates (classes : list ClassInput)
    (errors : gmap string string) : gmap string string :=
  if has_duplicate_ids (map id classes) then
    <["general" := "Duplicate class IDs detected. Please refresh the page."]> errors
  else errors.

Definition check_lunch (constraints : TimetableConstraints)
    (errors : gmap string string) : gmap string string :=
  match lunch_break_period constraints with
  | Some l =>
      if truthy l && gt l (periods_per_day constraints) then
        <["lunch" :=
            "Lunch break period (" +:+ toString l
              +:+ ") cannot exceed periods per day ("
              +:+ toString (periods_per_day constraints) +:+ ")"]> errors
      else errors
  | None => errors
  end.

Definition capacity_message (needed available : number) : string :=
  "Not enough time slots! Need " +:+ toString needed
    +:+ " but only " +:+ toString available +:+ " available.".

Definition check_capacity (classes : list ClassInput)
    (constraints : TimetableConstraints)
    (errors : gmap string string) : gmap string string :=
  if gt (totalPeriodsNeeded classes) (totalPeriodsAvailable constraints) then
    <["capacity" :=
        capacity_message (totalPeriodsNeeded classes)
                         (totalPeriodsAvailable constraints)]> errors
  else errors.

(** The [errors] object [validateInputs] has built when it reaches the
    capacity check, and the one it has built when it returns (and hands to
    [setValidationErrors]). *)
Definition errors_before_capacity (classes : list ClassInput)
    (constraints : TimetableConstraints) : gmap string string :=
  check_lunch constraints
    (check_duplicates classes
       (fold_left (validate_class constraints) classes ∅)).

Definition validation_errors (classes : list ClassInput)
    (constraints : TimetableConstraints) : gmap string string :=
  check_capacity classes constraints (errors_before_capacity classes constraints).

(** [validateInputs]: [Object.keys(errors).length === 0]. *)
Definition validateInputs (classes : list ClassInput)
    (constraints : TimetableConstraints) : bool :=
  Nat.eqb (size (validation_errors classes constraints)) 0.

(** The classes with [name] and [teacher] trimmed, as posted. *)
Definition trimmedClasses (classes : list ClassInput) : list ClassInput :=
  map (fun cls =>
         mkClass (id cls) (trim (name cls)) (trim (teacher cls))
                 (periods_per_week cls) (duration cls) (color cls))
      classes.

(** [handleGenerate], up to the request it sends. *)
Definition handleGenerate (classes : list ClassInput)
    (constraints : TimetableConstraints) : outcome :=
  if negb (validateInputs classes constraints) then
    Rejected "Please fix the validation errors above"
             (validation_errors classes constraints)
  else Posted (trimmedClasses classes) constraints.

(** The state of the form and its handlers. *)

Record form : Type := mkForm {
  classes : list ClassInput;
  constraints : TimetableConstraints;
  validationErrors : gmap string string
}.

Definition initial : form := mkForm initial_classes initial_constraints ∅.

(** [addClass]: the new identifier is [Date.now().toString()]; [now] is the
    clock reading, in milliseconds. *)
Definition addClass (now : Z) (f : form) : form :=
  let newId := pretty now in
  mkForm (classes f ++ [new_class newId]) (constraints f) (validationErrors f).

Definition removeClass (i : string) (f : form) : form :=
  if (1 <? length (classes f))%nat then
    mkForm (List.filter (fun c => negb (String.eqb (id c) i)) (classes f))
           (constraints f)
           (delete (class_key i "teacher")
              (delete (class_key i "name") (validationErrors f)))
  else f.

(** [updated[field] = (value as string).trimStart()] for the two text fields. *)
Definition auto_trim (fv : field_value) : field_value :=
  match fv with
  | name_value v => name_value (trimStart v)
  | teacher_value v => teacher_value (trimStart v)
  | periods_per_week_value v => periods_per_week_value v
  end.

Definition updateClass (i : string) (fv : field_value) (f : form) : form :=
  mkForm (map (fun c => if String.eqb (id c) i then with_field c (auto_trim fv) else c)
              (classes f))
         (constraints f)
         (match validationErrors f !! class_key i (field_name fv) with
          | Some m =>
              if not_str m then validationErrors f
              else delete (class_key i (field_name fv)) (validationErrors f)
          | None => validationErrors f
          end).

(** The value the periods-per-week input passes to [updateClass]. *)
Definition periods_per_week_of (val : number) : number :=
  if isNaN val then Num 1 else Math_max (Num 1) (Math_min (Num 40) val).

(** The value the periods-per-day input stores. *)
Definition periods_per_day_of (val : number) : number :=
  if isNaN val then Num 8 else Math_max (Num 4) (Math_min (Num 12) val).

(** The value the lunch-break input stores. *)
Definition lunch_break_period_of (constraints : TimetableConstraints)
    (val : number) : option number :=
  if strict_eq val (Num 0) then None
  else Some (Math_max (Num 0) (Math_min (periods_per_day constraints) val)).

Inductive event : Type :=
| AddClass (now : Z)
| RemoveClass (i : string)
| ChangeName (i : string) (value : text)
| ChangeTeacher (i : string) (value : text)
| ChangePeriodsPerWeek (i : string) (val : number)
| ChangePeriodsPerDay (val : number)
| ChangeLunchBreak (val : number)
| CheckPreferMorning (checked : bool)
| CheckPreferAfternoon (checked : bool)
| Generate.

(** One event, through the [onClick] or [onChange] of its element, while
    no request is pending (the inputs are disabled meanwhile). The add
    button is disabled once [classes.length >= 20]; the remove button is
    rendered only while [classes.length > 1]; the generate button is
    disabled while [classes.length === 0], and otherwise stores the
    validation errors. *)
Definition step (f : form) (e : event) : form :=
  match e with
  | AddClass now =>
      if (20 <=? length (classes f))%nat then f else addClass now f
  | RemoveClass i =>
      if (1 <? length (classes f))%nat then removeClass i f else f
  | ChangeName i v => updateClass i (name_value v) f
  | ChangeTeacher i v => updateClass i (teacher_value v) f
  | ChangePeriodsPerWeek i val =>
      updateClass i (periods_per_week_value (periods_per_week_of val)) f
  | ChangePeriodsPerDay val =>
      mkForm (classes f)
             (with_periods_per_day (constraints f) (periods_per_day_of val))
             (validationErrors f)
  | ChangeLunchBreak val =>
      mkForm (classes f)
             (with_lunch_break_period (constraints f)
                (lunch_break_period_of (constraints f) val))
             (validationErrors f)
  | CheckPreferMorning checked =>
      mkForm (classes f) (with_preferences (constraints f) checked false)
             (validationErrors f)
  | CheckPreferAfternoon checked =>
      mkForm (classes f) (with_preferences (constraints f) false checked)
             (validationErrors f)
  | Generate =>
      if (length (classes f) =? 0)%nat then f
      else mkForm (classes f) (constraints f)
                  (validation_errors (classes f) (constraints f))
  end.

Definition run (es : list event) : form := fold_left step es initial.

End Revised.

(** ** Vocabulary of the properties *)

(** An integer between [lo] and [hi]. *)
Definition in_range (lo hi : Z) (x : number) : Prop :=
  match x with Num z => lo <= z <= hi | NaN => False end.

(** [x] is an integer, and lies between the integers [lo] and [hi]. *)
Definition between (lo x hi : number) : Prop :=
  match lo, x, hi with
  | Num a, Num b, Num c => a <= b <= c
  | _, _, _ => False
  end.

(** A text of white space only; the empty text is one. *)
Definition blank (s : text) : bool := forallb is_white_space s.


(** The integer a number field counts for under [x || d]. *)
Definition value_or (d : Z) (x : number) : Z :=
  match x with NaN => d | Num z => if z =? 0 then d else z end.

(** The sum of periods-per-week times duration, a falsy periods-per-week
    counting 0 and a falsy duration 1. *)
Definition weighted_periods (classes : list ClassInput) : Z :=
  fold_right
    (fun cls total =>
       value_or 0 (periods_per_week cls) * value_or 1 (duration cls) + total)
    0 classes.

(** The two preference flags are not both set. *)
Definition at_most_one_preference (c : TimetableConstraints) : Prop :=
  prefer_morning c && prefer_afternoon c = false.

(** A lunch break is configured when the field holds a period number; the
    form's hint reads "Set to 0 for no lunch break". *)
Definition lunch_configured (c : TimetableConstraints) : Prop :=
  exists l, lunch_break_period c = Some (Num l) /\ l <> 0.

(** The identifiers of a class list, in order. *)
Definition ids (classes : list ClassInput) : list string := map id classes.

(** A class as the revised form keeps it: periods-per-week within its
    bounds, and the duration it was created with. *)
Definition class_ok (cls : ClassInput) : Prop :=
  in_range 1 40 (periods_per_week cls) /\ duration cls = Num 1.

(** What every state of the revised form satisfies. *)
Record well_formed (f : Revised.form) : Prop := mk_well_formed {
  wf_periods_per_day :
    in_range 4 12 (periods_per_day (Revised.constraints f));
  wf_classes : Forall class_ok (Revised.classes f)
}.

(** Every property of [m] is a property of [m']: the checks of
    [validateInputs] only add properties to [errors], or overwrite them. *)
Definition extends (m m' : gmap string string) : Prop :=
  forall k, is_Some (m !! k) -> is_Some (m' !! k).

(** Sample inputs: a class of 5 periods a week, a class that fills the
    initial week, three classes of 30 periods each, and a class whose name
    and teacher are one space. *)
Definition single_period_class : ClassInput :=
  mkClass "1" (utf16 "Mathematics") (utf16 "Mr. Smith") (Num 5) (Num 1) None.

Definition full_week_class : ClassInput :=
  mkClass "1" (utf16 "Mathematics") (utf16 "Mr. Smith") (Num 35) (Num 1) None.

Definition three_heavy_classes : list ClassInput :=
  [ mkClass "1" (utf16 "Mathematics") (utf16 "Mr. Smith") (Num 30) (Num 1) None;
    mkClass "2" (utf16 "Physics") (utf16 "Ms. Jones") (Num 30) (Num 1) None;
    mkClass "3" (utf16 "History") (utf16 "Mr. Brown") (Num 30) (Num 1) None ].

Definition spaces_class : ClassInput :=
  mkClass "1" (utf16 " ") (utf16 " ") (Num 5) (Num 1) None.

(** The clock readings of the [AddClass] events, in order. *)
Definition clock_readings (es : list Revised.event) : list Z :=
  omap (fun e => match e with Revised.AddClass now => Some now | _ => None end) es.

(** ** Vocabulary of the acceptance conditions *)

(** A number that no test [x < lo || x > hi] rejects: an integer from [lo]
    to [hi], or [NaN], on which both comparisons are false. *)
Definition passes_range (lo hi : Z) (x : number) : Prop :=
  match x with NaN => True | Num z => lo <= z <= hi end.

(** [x] and [y] are integers and [x] is the larger one. *)
Definition exceeds (x y : number) : Prop :=
  match x, y with Num a, Num b => b < a | _, _ => False end.

(** A text field with something besides white space in it, of at most 100
    code units once trimmed. *)
Definition text_ok (s : text) : Prop :=
  blank s = false /\ (length (trim s) <= 100)%nat.

(** A class on which the loop of [validateInputs] records nothing. *)
Definition class_accepted (c : TimetableConstraints) (cls : ClassInput) : Prop :=
  text_ok (name cls) /\ text_ok (teacher cls)
  /\ passes_range 1 40 (periods_per_week cls)
  /\ passes_range 1 4 (duration cls)
  /\ ~ exceeds (duration cls) (periods_per_day c).

(** Constraints on which the lunch check records nothing. *)
Definition lunch_accepted (c : TimetableConstraints) : Prop :=
  forall l, lunch_break_period c = Some (Num l) -> l <> 0 ->
            ~ exceeds (Num l) (periods_per_day c).

(** The four field names under which the loop records errors. *)
Definition error_field (field : string) : Prop :=
  field = "name" \/ field = "teacher" \/ field = "periods" \/ field = "duration".

(** ** The reply to the request, and what the form does with it *)

(** [TimeSlot] and [TimetableResponse] of [types.ts]. *)
Module TimeSlot.
Record t : Type := mk {
  day : Day;
  period : number;
  class_id : string;
  class_name : string;
  teacher : string;
  color : option string
}.
End TimeSlot.

Record TimetableResponse : Type := mkResponse {
  schedule : list TimeSlot.t;
  success : bool;
  message : string
}.

(** A value of no declared type, as the fields of a caught error are:
    [undefined] (also for a field that is missing), [null], a boolean, a
    number, a string, or an object or array, which is truthy whatever it
    holds and of which only the string it converts to is kept. *)
Inductive value : Type :=
| Undefined
| Null
| Bool (b : bool)
| Number (n : number)
| Str (s : string)
| Obj (as_string : string).

(** [ToBoolean] *)
Definition truthy_value (v : value) : bool :=
  match v with
  | Undefined | Null => false
  | Bool b => b
  | Number n => truthy n
  | Str s => negb (not_str s)
  | Obj _ => true
  end.

(** [String(v)], as a template literal interpolates a value. *)
Definition value_to_string (v : value) : string :=
  match v with
  | Undefined => "undefined"
  | Null => "null"
  | Bool b => if b then "true" else "false"
  | Number n => toString n
  | Str s => s
  | Obj s => s
  end.

(** [v === "literal"] and [v === number] for a number literal. *)
Definition is_string (v : value) (literal : string) : bool :=
  match v with Str s => String.eqb s literal | _ => false end.

Definition is_number (v : value) (literal : Z) : bool :=
  match v with Number n => strict_eq n (Num literal) | _ => false end.

(** The fields [handleGenerate] reads off a caught error: [err.code],
    [err.response?.status], [err.response?.data?.message],
    [err.response?.data?.detail] and [err.message]. *)
Record request_error : Type := mkError {
  err_code : value;
  err_status : value;
  err_data_message : value;
  err_data_detail : value;
  err_message : value
}.

(** How the request ends: with a reply, or with a thrown error. *)
Inductive completion : Type :=
| Replied (r : TimetableResponse)
| Threw (err : request_error).

(** What the form has done when the request is over: called
    [onScheduleGenerated], or stored an error; [loading] is false again in
    both cases. *)
Inductive shown : Type :=
| ScheduleGenerated (schedule : list TimeSlot.t) (constraints : TimetableConstraints)
| ErrorSet (error : value).

Module RevisedReply.

(** The [catch] block of the revised [handleGenerate]. *)
Definition error_of (err : request_error) : value :=
  if is_string (err_code err) "ECONNABORTED" then
    Str "Request timed out. The server might be busy. Please try again."
  else if is_number (err_status err) 429 then
    Str "Too many requests. Please wait a moment and try again."
  else if truthy_value (err_data_message err) then err_data_message err
  else if truthy_value (err_data_detail err) then err_data_detail err
  else if truthy_value (err_message err) then
    Str ("Network error: " +:+ value_to_string (err_message err)
           +:+ ". Please check your connection.")
  else Str "Failed to generate timetable. Please try again.".

(** The [try] block after the [await], and the [catch] block. *)
Definition after_request (constraints : TimetableConstraints)
    (done : completion) : shown :=
  match done with
  | Replied r =>
      if success r then ScheduleGenerated (schedule r) constraints
      else ErrorSet (if not_str (message r)
                     then Str "Failed to generate timetable"
                     else Str (message r))
  | Threw err => ErrorSet (error_of err)
  end.

End RevisedReply.

Module OriginalReply.

Definition after_request (constraints : TimetableConstraints)
    (done : completion) : shown :=
  match done with
  | Replied r =>
      if success r then ScheduleGenerated (schedule r) constraints
      else ErrorSet (Str (message r))
  | Threw err =>
      ErrorSet (if truthy_value (err_data_detail err) then err_data_detail err
                else Str "Failed to generate timetable. Please try again.")
  end.

End OriginalReply.

(** ** The timetable grid, [TimetableView] *)

#[global] Instance Day_eq_dec : EqDecision Day.
Proof. solve_decision. Defined.

Module TimetableView.

(** [getSlot]: the first entry of the schedule on that day and period. *)
Definition getSlot (schedule : list TimeSlot.t) (day : Day) (period : number)
    : option TimeSlot.t :=
  List.find
    (fun s => bool_decide (TimeSlot.day s = day)
              && strict_eq (TimeSlot.period s) period)
    schedule.

(** [Array.from({ length: periodsPerDay }, (_, i) => i + 1)]: a length that
    is [NaN] or negative counts as 0. *)
Definition periods (periodsPerDay : number) : list number :=
  match periodsPerDay with
  | NaN => []
  | Num z => map (fun i => Num (Z.of_nat i + 1)) (seq 0 (Z.to_nat z))
  end.

(** What a cell of the table body shows. *)
Inductive cell : Type :=
| ClassCell (slot : TimeSlot.t)
| LunchBreak
| NoClass.

(** The [days.map] callback of a row. *)
Definition cell_of (schedule : list TimeSlot.t) (constraints : TimetableConstraints)
    (period : number) (day : Day) : cell :=
  match getSlot schedule day period with
  | Some slot => ClassCell slot
  | None =>
      match lunch_break_period constraints with
      | Some l => if truthy l && strict_eq period l then LunchBreak else NoClass
      | None => NoClass
      end
  end.

(** The rows of the table body: the period of the row, and its cells in the
    order of [days_per_week]. *)
Definition rows (schedule : list TimeSlot.t) (constraints : TimetableConstraints)
    : list (number * list cell) :=
  map (fun period =>
         (period, map (cell_of schedule constraints period)
                      (days_per_week constraints)))
      (periods (periods_per_day constraints)).

(** The class cells of the table, row by row. *)
Definition class_cells (schedule : list TimeSlot.t)
    (constraints : TimetableConstraints) : list TimeSlot.t :=
  concat (map (fun row =>
                 omap (fun c => match c with ClassCell s => Some s | _ => None end)
                      (snd row))
              (rows schedule constraints)).

End TimetableView.

(** ** The application shell, [App] (the revision that keeps the constraints) *)

Module App.

Inductive View : Type := landing | form | timetable.

Record state : Type := mkState {
  currentView : View;
  classes : list ClassInput;
  schedule : list TimeSlot.t;
  constraints : TimetableConstraints
}.

Definition initial : state := mkState landing [] [] initial_constraints.

Definition handleStartManual (a : state) : state :=
  mkState form (classes a) (schedule a) (constraints a).

Definition handleClassesSubmit (submittedClasses : list ClassInput)
    (submittedConstraints : TimetableConstraints) (a : state) : state :=
  mkState (currentView a) submittedClasses (schedule a) submittedConstraints.

Definition handleScheduleGenerated (generatedSchedule : list TimeSlot.t)
    (submittedConstraints : TimetableConstraints) (a : state) : state :=
  mkState timetable (classes a) generatedSchedule submittedConstraints.

Definition handleReset (a : state) : state :=
  mkState landing [] [] (constraints a).

Definition handleBackToForm (a : state) : state :=
  mkState form (classes a) (schedule a) (constraints a).

(** A click on "Generate" in the revised form mounted in the shell, with the
    way the request it may send ends. The button is disabled while
    [classes.length === 0]: then nothing happens, and there is no result.
    Otherwise [handleGenerate] runs: [onSubmit] is called before the
    request, [onScheduleGenerated] on a successful reply, and the result is
    the state of the shell and the error the form holds. *)
Definition generate (f : Revised.form) (done : completion) (a : state)
    : option (state * value) :=
  if (length (Revised.classes f) =? 0)%nat then None
  else
    Some
      match Revised.handleGenerate (Revised.classes f) (Revised.constraints f) with
      | Rejected error _ => (a, Str error)
      | Posted trimmedClasses constraints =>
          let a := handleClassesSubmit trimmedClasses constraints a in
          match RevisedReply.after_request constraints done with
          | ScheduleGenerated schedule constraints =>
              (handleScheduleGenerated schedule constraints a, Null)
          | ErrorSet error => (a, error)
          end
      end.

(** The table [TimetableView] renders from the state of the shell. *)
Definition table (a : state) : list (number * list TimetableView.cell) :=
  TimetableView.rows (schedule a) (constraints a).

(** What the user can do in the shell: each callback belongs to the one
    component that is rendered for the current view. [Generate] is a click
    on "Generate" in the form in state [f], with the way its request ends
    (the form's buttons are disabled while the request is pending); on a
    form without classes the click does nothing. *)
Inductive event : Type :=
| StartManual
| Generate (f : Revised.form) (done : completion)
| Back
| Regenerate
| StartOver.

Definition step (a : state) (e : event) : state :=
  match currentView a, e with
  | landing, StartManual => handleStartManual a
  | form, Generate f done =>
      match generate f done a with Some after => fst after | None => a end
  | form, Back => handleReset a
  | timetable, Regenerate => handleBackToForm a
  | timetable, StartOver => handleReset a
  | _, _ => a
  end.

Definition run (es : list event) : state := fold_left step es initial.

End App.

(** Sample schedules: two entries on different places, and the same with a
    third entry on the place of the first. *)
Definition sample_schedule : list TimeSlot.t :=
  [ TimeSlot.mk MONDAY (Num 1) "1" "Mathematics" "Mr. Smith" None;
    TimeSlot.mk TUESDAY (Num 3) "2" "Physics" "Ms. Jones" None ].

Definition clashing_schedule : list TimeSlot.t :=
  sample_schedule
  ++ [ TimeSlot.mk MONDAY (Num 1) "3" "History" "Mr. Brown" None ].

(** A text field as the revised form stores it: not starting with white
    space. *)
Definition starts_clean (s : text) : Prop :=
  match s with
  | [] => True
  | u :: _ => is_white_space u = false
  end.

(** The place of a schedule entry in the grid. *)
Definition place (s : TimeSlot.t) : Day * number :=
  (TimeSlot.day s, TimeSlot.period s).

(** ** Numbers and strings *)

Section Numbers.

Lemma or_else_value (x : number) (d : Z) :
  or_else x (Num d) = Num (value_or d x).
Proof.
  destruct x as [|z]; [reflexivity|].
  unfold or_else, truthy, value_or. destruct (z =? 0); reflexivity.
Qed.

Lemma gt_irrefl (x : number) : gt x x = false.
Proof. destruct x as [|z]; [reflexivity|]. unfold gt, lt. apply Z.ltb_irrefl. Qed.

End Numbers.

Section Trimming.

Lemma trimStart_blank (s : text) : blank s = true -> trimStart s = [].
Proof.
  induction s as [|u s IH]; [reflexivity|].
  unfold blank; cbn [forallb trimStart]. intros [Hu Hs]%andb_true_iff.
  rewrite Hu. apply IH, Hs.
Qed.

Lemma trimStart_head (s : text) :
  match trimStart s with
  | [] => blank s = true
  | u :: _ => is_white_space u = false
  end.
Proof.
  induction s as [|u s IH]; [reflexivity|].
  simpl. destruct (is_white_space u) eqn:Hu.
  - destruct (trimStart s); [|exact IH].
    unfold blank in *; cbn [forallb]. rewrite ?Hu. exact IH.
  - exact Hu.
Qed.

Lemma trimEnd_empty (s : text) : trimEnd s = [] -> blank s = true.
Proof.
  induction s as [|u s IH]; [reflexivity|].
  simpl. destruct (trimEnd s) eqn:Hs; [|discriminate].
  destruct (is_white_space u) eqn:Hu; [|discriminate].
  intros _. unfold blank in *; cbn [forallb]. rewrite ?Hu. apply IH. reflexivity.
Qed.

(** [trim] leaves nothing exactly of the texts of white space. *)
Lemma trim_empty_iff (s : text) : trim s = [] <-> blank s = true.
Proof.
  unfold trim. split.
  - intros H. pose proof (trimStart_head s) as Hh.
    destruct (trimStart s) as [|u t] eqn:Ht; [exact Hh|].
    apply trimEnd_empty in H. unfold blank in H; cbn [forallb] in H.
    rewrite Hh in H. discriminate.
  - intros H. rewrite (trimStart_blank s H). reflexivity.
Qed.

Lemma blank_empty : blank [] = true.
Proof. reflexivity. Qed.

(** The test [!s || !s.trim()] of [validateInputs]. *)
Lemma required_test (s : text) :
  not_text s || not_text (trim s) = blank s.
Proof.
  destruct (blank s) eqn:Hb.
  - apply trim_empty_iff in Hb. rewrite Hb. apply orb_true_r.
  - destruct s as [|u s]; [discriminate|]. simpl.
    destruct (trim (u :: s)) eqn:Ht; [|reflexivity].
    apply trim_empty_iff in Ht. congruence.
Qed.

End Trimming.

(** ** The capacity figures *)

Section Capacity.

Import Revised.

Lemma totalPeriodsNeeded_from (classes : list ClassInput) (a : Z) :
  fold_left
    (fun sum cls =>
       add sum (mul (or_else (periods_per_week cls) (Num 0))
                    (or_else (duration cls) (Num 1))))
    classes (Num a)
  = Num (a + weighted_periods classes).
Proof.
  revert a. induction classes as [|cls classes IH]; intros a; simpl.
  - f_equal. lia.
  - rewrite !or_else_value. simpl. rewrite IH. f_equal. lia.
Qed.

(** The required count is always an integer, never [NaN]. *)
Lemma totalPeriodsNeeded_weighted (classes : list ClassInput) :
  totalPeriodsNeeded classes = Num (weighted_periods classes).
Proof. unfold totalPeriodsNeeded. rewrite totalPeriodsNeeded_from. f_equal. Qed.


Lemma totalPeriodsAvailable_Num (c : TimetableConstraints) (p : Z) :
  periods_per_day c = Num p ->
  totalPeriodsAvailable c
  = Num (Z.of_nat (length (days_per_week c)) * p
         - (if truthy_opt (lunch_break_period c)
            then Z.of_nat (length (days_per_week c)) else 0)).
Proof.
  intros Hp. unfold totalPeriodsAvailable, length_of. rewrite Hp.
  destruct (truthy_opt _); reflexivity.
Qed.

End Capacity.

(** ** What [validateInputs] records *)

Section Validation.

Import Revised.

Lemma extends_refl m : extends m m.
Proof. intros k H; exact H. Qed.

Lemma extends_insert m k v : extends m (<[k := v]> m).
Proof. intros k' H. apply lookup_insert_is_Some'. right; exact H. Qed.

Lemma extends_trans m1 m2 m3 : extends m1 m2 -> extends m2 m3 -> extends m1 m3.
Proof. intros H12 H23 k H. apply H23, H12, H. Qed.

Ltac extends_cases :=
  repeat first
    [ apply extends_refl
    | match goal with
      | |- extends _ (if ?b then _ else _) => destruct b
      | |- extends _ (match ?o with Some _ => _ | None => _ end) => destruct o
      | |- extends ?m (<[_ := _]> ?m) => apply extends_insert
      | |- extends ?m (<[_ := _]> _) =>
          eapply extends_trans; [|apply extends_insert]
      end ].

Lemma check_name_extends cls m : extends m (check_name cls m).
Proof. unfold check_name. extends_cases. Qed.

Lemma check_teacher_extends cls m : extends m (check_teacher cls m).
Proof. unfold check_teacher. extends_cases. Qed.

Lemma check_periods_extends cls m : extends m (check_periods cls m).
Proof. unfold check_periods. extends_cases. Qed.

Lemma check_duration_extends c cls m : extends m (check_duration c cls m).
Proof. unfold check_duration. cbv zeta. extends_cases. Qed.

Lemma validate_class_extends c m cls : extends m (validate_class c m cls).
Proof.
  unfold validate_class.
  eapply extends_trans; [apply check_name_extends|].
  eapply extends_trans; [apply check_teacher_extends|].
  eapply extends_trans; [apply check_periods_extends|].
  apply check_duration_extends.
Qed.

Lemma validate_classes_extends c classes m :
  extends m (fold_left (validate_class c) classes m).
Proof.
  revert m. induction classes as [|cls classes IH]; intros m; simpl.
  - apply extends_refl.
  - eapply extends_trans; [apply validate_class_extends | apply IH].
Qed.

Lemma check_duplicates_extends classes m : extends m (check_duplicates classes m).
Proof. unfold check_duplicates. extends_cases. Qed.

Lemma check_lunch_extends c m : extends m (check_lunch c m).
Proof. unfold check_lunch. extends_cases. Qed.

Lemma check_capacity_extends classes c m : extends m (check_capacity classes c m).
Proof. unfold check_capacity. extends_cases. Qed.

Lemma validation_errors_extends classes c :
  extends (fold_left (validate_class c) classes ∅) (validation_errors classes c).
Proof.
  unfold validation_errors, errors_before_capacity.
  eapply extends_trans; [apply check_duplicates_extends|].
  eapply extends_trans; [apply check_lunch_extends|].
  apply check_capacity_extends.
Qed.

(** A blank name sets the name property of the class, a blank teacher its
    teacher property. *)
Lemma check_name_blank cls m :
  blank (name cls) = true ->
  check_name cls m !! class_key (id cls) "name" = Some "Class name is required".
Proof.
  intros Hb. unfold check_name. rewrite required_test, Hb.
  apply lookup_insert_eq.
Qed.

Lemma check_teacher_blank cls m :
  blank (teacher cls) = true ->
  check_teacher cls m !! class_key (id cls) "teacher"
  = Some "Teacher name is required".
Proof.
  intros Hb. unfold check_teacher. rewrite required_test, Hb.
  apply lookup_insert_eq.
Qed.

Lemma validate_class_name c m cls :
  blank (name cls) = true ->
  is_Some (validate_class c m cls !! class_key (id cls) "name").
Proof.
  intros Hb. unfold validate_class.
  apply check_duration_extends, check_periods_extends, check_teacher_extends.
  rewrite check_name_blank by exact Hb. eauto.
Qed.

Lemma validate_class_teacher c m cls :
  blank (teacher cls) = true ->
  is_Some (validate_class c m cls !! class_key (id cls) "teacher").
Proof.
  intros Hb. unfold validate_class.
  apply check_duration_extends, check_periods_extends.
  rewrite check_teacher_blank by exact Hb. eauto.
Qed.

(** The property of a blank class survives the rest of the loop. *)
Lemma validate_classes_reports c classes cls field :
  In cls classes ->
  (forall m, is_Some (validate_class c m cls !! class_key (id cls) field)) ->
  forall m,
    is_Some (fold_left (validate_class c) classes m !! class_key (id cls) field).
Proof.
  intros Hin Hcls.
  induction classes as [|cls' classes IH]; [destruct Hin|].
  intros m. simpl. destruct Hin as [->|Hin].
  - apply validate_classes_extends, Hcls.
  - apply IH, Hin.
Qed.

(** Acceptance means that the [errors] object is empty. *)
Lemma validateInputs_true classes c :
  validateInputs classes c = true <-> validation_errors classes c = ∅.
Proof.
  unfold validateInputs. rewrite Nat.eqb_eq. apply map_size_empty_iff.
Qed.

Lemma validateInputs_false classes c k :
  is_Some (validation_errors classes c !! k) -> validateInputs classes c = false.
Proof.
  intros [v Hv]. destruct (validateInputs classes c) eqn:Hacc; [|reflexivity].
  apply validateInputs_true in Hacc. rewrite Hacc, lookup_empty in Hv.
  discriminate.
Qed.

Lemma handleGenerate_rejects classes c :
  validateInputs classes c = false ->
  handleGenerate classes c
  = Rejected "Please fix the validation errors above"
             (validation_errors classes c).
Proof. intros H. unfold handleGenerate. rewrite H. reflexivity. Qed.

Lemma handleGenerate_posts classes c :
  validateInputs classes c = true ->
  handleGenerate classes c = Posted (trimmedClasses classes) c.
Proof. intros H. unfold handleGenerate. rewrite H. reflexivity. Qed.

(** No check before the capacity check writes the capacity property. *)
Lemma class_key_capacity i field : class_key i field <> "capacity".
Proof. unfold class_key. simpl. discriminate. Qed.

Ltac keeps_capacity :=
  repeat match goal with
    | |- (if ?b then _ else _) !! "capacity" = None => destruct b
    | |- (match ?o with Some _ => _ | None => _ end) !! "capacity" = None =>
        destruct o
    | |- <[_ := _]> _ !! "capacity" = None =>
        rewrite lookup_insert_ne
          by first [apply class_key_capacity | discriminate]
    end; try assumption.

Lemma validate_class_capacity c m cls :
  m !! "capacity" = None -> validate_class c m cls !! "capacity" = None.
Proof.
  intros H.
  unfold validate_class, check_duration, check_periods, check_teacher, check_name.
  cbv zeta. keeps_capacity.
Qed.

Lemma errors_before_capacity_free classes c :
  errors_before_capacity classes c !! "capacity" = None.
Proof.
  unfold errors_before_capacity, check_lunch, check_duplicates.
  assert (H : forall m, m !! "capacity" = None ->
            fold_left (validate_class c) classes m !! "capacity" = None).
  { induction classes as [|cls classes IH]; intros m Hm; simpl; [exact Hm|].
    apply IH, validate_class_capacity, Hm. }
  specialize (H ∅ (lookup_empty _)).
  keeps_capacity.
Qed.

End Validation.

(** ** Invariants of the revised form *)

Section RevisedInvariants.

Import Revised.

Lemma periods_per_week_of_range (val : number) :
  in_range 1 40 (periods_per_week_of val).
Proof. destruct val as [|z]; simpl; lia. Qed.

Lemma periods_per_day_of_range (val : number) :
  in_range 4 12 (periods_per_day_of val).
Proof. destruct val as [|z]; simpl; lia. Qed.

Lemma with_field_ok (cls : ClassInput) (fv : field_value) :
  class_ok cls ->
  match fv with
  | periods_per_week_value v => in_range 1 40 v
  | _ => True
  end ->
  class_ok (with_field cls (auto_trim fv)).
Proof. intros [Hp Hd] Hv. destruct fv; split; simpl; assumption. Qed.

Lemma updateClass_classes_ok i fv f :
  Forall class_ok (classes f) ->
  match fv with
  | periods_per_week_value v => in_range 1 40 v
  | _ => True
  end ->
  Forall class_ok (classes (updateClass i fv f)).
Proof.
  intros Hf Hv. simpl. induction Hf as [|cls l Hc _ IH]; simpl; constructor.
  - destruct (String.eqb (id cls) i); [apply with_field_ok|]; assumption.
  - exact IH.
Qed.

Lemma filter_classes_ok (keep : ClassInput -> bool) (l : list ClassInput) :
  Forall class_ok l -> Forall class_ok (List.filter keep l).
Proof.
  induction 1 as [|cls l Hc _ IH]; simpl; [constructor|].
  destruct (keep cls); [constructor|]; assumption.
Qed.

Lemma step_well_formed (f : form) (e : event) :
  well_formed f -> well_formed (step f e).
Proof.
  intros [Hd Hc]. destruct e; cbn [step].
  - destruct (20 <=? length (classes f))%nat; constructor; simpl; try assumption.
    apply Forall_app; split; [assumption|].
    repeat constructor; simpl; lia.
  - destruct (1 <? length (classes f))%nat eqn:Hlen; [|constructor; assumption].
    unfold removeClass. rewrite Hlen.
    constructor; simpl; [assumption | apply filter_classes_ok, Hc].
  - constructor; [exact Hd | apply updateClass_classes_ok; [exact Hc | exact I]].
  - constructor; [exact Hd | apply updateClass_classes_ok; [exact Hc | exact I]].
  - constructor; [exact Hd|].
    apply updateClass_classes_ok; [exact Hc | apply periods_per_week_of_range].
  - constructor; simpl; [apply periods_per_day_of_range | exact Hc].
  - constructor; simpl; assumption.
  - constructor; simpl; assumption.
  - constructor; simpl; assumption.
  - destruct (length (classes f) =? 0)%nat; constructor; simpl; assumption.
Qed.

Lemma initial_well_formed : well_formed initial.
Proof. constructor; simpl; [lia | repeat constructor; simpl; lia]. Qed.

Lemma steps_well_formed (es : list event) (f : form) :
  well_formed f -> well_formed (fold_left step es f).
Proof.
  revert f. induction es as [|e es IH]; intros f Hf; simpl; [exact Hf|].
  apply IH, step_well_formed, Hf.
Qed.

Lemma run_well_formed (es : list event) : well_formed (run es).
Proof. apply steps_well_formed, initial_well_formed. Qed.

Lemma run_snoc (es : list event) (e : event) :
  run (es ++ [e]) = step (run es) e.
Proof. unfold run. rewrite fold_left_app. reflexivity. Qed.

End RevisedInvariants.

(** ** The preference flags *)

Section Preferences.

Lemma original_step_preferences (f : Original.form) (e : Original.event) :
  at_most_one_preference (Original.constraints f) ->
  at_most_one_preference (Original.constraints (Original.step f e)).
Proof.
  unfold at_most_one_preference. intros Hf.
  destruct e; cbn [Original.step];
    try destruct (1 <? length (Original.classes f))%nat;
    simpl; first [exact Hf | apply andb_false_r | reflexivity].
Qed.

Lemma revised_step_preferences (f : Revised.form) (e : Revised.event) :
  at_most_one_preference (Revised.constraints f) ->
  at_most_one_preference (Revised.constraints (Revised.step f e)).
Proof.
  unfold at_most_one_preference. intros Hf.
  destruct e; cbn [Revised.step]; unfold Revised.removeClass;
    try destruct (20 <=? length (Revised.classes f))%nat;
    try destruct (1 <? length (Revised.classes f))%nat;
    try destruct (length (Revised.classes f) =? 0)%nat;
    simpl; first [exact Hf | apply andb_false_r | reflexivity].
Qed.

Lemma original_steps_preferences (es : list Original.event) f :
  at_most_one_preference (Original.constraints f) ->
  at_most_one_preference
    (Original.constraints (fold_left Original.step es f)).
Proof.
  revert f. induction es as [|e es IH]; intros f Hf; simpl; [exact Hf|].
  apply IH, original_step_preferences, Hf.
Qed.

Lemma revised_steps_preferences (es : list Revised.event) f :
  at_most_one_preference (Revised.constraints f) ->
  at_most_one_preference
    (Revised.constraints (fold_left Revised.step es f)).
Proof.
  revert f. induction es as [|e es IH]; intros f Hf; simpl; [exact Hf|].
  apply IH, revised_step_preferences, Hf.
Qed.

End Preferences.

(** ** The identifiers of the revised form *)

Section Identifiers.

Import Revised.

Lemma ids_update i fv (l : list ClassInput) :
  ids (map (fun c => if String.eqb (id c) i then with_field c (auto_trim fv) else c) l)
  = ids l.
Proof.
  unfold ids. rewrite map_map. apply map_ext. intros c.
  destruct (String.eqb (id c) i); [destruct fv|]; reflexivity.
Qed.

Lemma ids_filter_incl (keep : ClassInput -> bool) (l : list ClassInput) (i : string) :
  In i (ids (List.filter keep l)) -> In i (ids l).
Proof.
  unfold ids. rewrite !in_map_iff. intros (c & Hc & Hin).
  exists c. split; [exact Hc|]. apply List.filter_In in Hin. tauto.
Qed.

Lemma ids_filter_NoDup (keep : ClassInput -> bool) (l : list ClassInput) :
  NoDup (ids l) -> NoDup (ids (List.filter keep l)).
Proof.
  unfold ids. induction l as [|c l IH]; simpl; [auto|].
  intros Hnd. apply NoDup_cons in Hnd as [Hc Hl].
  destruct (keep c); simpl; [|auto].
  apply NoDup_cons. split; [|auto].
  intros Hin%list_elem_of_In. apply Hc, list_elem_of_In.
  apply (ids_filter_incl keep l), Hin.
Qed.

(** Identifiers stay distinct as long as every click on "add" reads a clock
    value that no earlier click has read, and that is not 1, the identifier
    of the initial class. *)
Lemma run_ids_fresh_clock (es : list event) :
  NoDup (1 :: clock_readings es) ->
  NoDup (ids (classes (run es)))
  /\ forall i, In i (ids (classes (run es))) ->
               In i (map pretty (1 :: clock_readings es)).
Proof.
  induction es as [|e es IH] using rev_ind.
  - intros _. split; [apply NoDup_singleton | simpl; tauto].
  - unfold clock_readings. rewrite omap_app. fold (clock_readings es).
    rewrite run_snoc, app_comm_cons, map_app.
    intros Hnd. pose proof (proj1 (proj1 (NoDup_app _ _) Hnd)) as Hes.
    destruct (IH Hes) as [IHn IHi]. clear IH.
    assert (Hold : forall i, In i (ids (classes (run es))) ->
              In i (map pretty (1 :: clock_readings es) ++
                    map pretty (omap (fun e0 => match e0 with
                                                | AddClass now => Some now
                                                | _ => None end) [e])))
      by (intros i Hi; apply in_or_app; left; apply IHi, Hi).
    destruct e; cbn [step];
      try (split; [exact IHn | exact Hold]);
      try (unfold updateClass; cbn [classes]; rewrite ids_update;
           split; [exact IHn | exact Hold]).
    + destruct (20 <=? length (classes (run es)))%nat;
        [split; [exact IHn | exact Hold]|].
      unfold addClass, ids. cbn [classes]. rewrite map_app. simpl map at 2.
      fold (ids (classes (run es))).
      assert (Hnew : ~ In (pretty now) (ids (classes (run es)))).
      { intros Hin%IHi. apply in_map_iff in Hin as (z & Hz & Hin).
        apply (inj pretty) in Hz. subst z.
        apply NoDup_app in Hnd as (_ & Hsep & _).
        apply (Hsep now); [apply list_elem_of_In, Hin|].
        simpl. apply list_elem_of_here. }
      split.
      * apply NoDup_app. split; [exact IHn|]. split; [|apply NoDup_singleton].
        intros i Hi%list_elem_of_In Hi'%list_elem_of_In.
        destruct Hi' as [<-|[]]. apply Hnew, Hi.
      * intros i [Hi|[<-|[]]]%in_app_or.
        -- apply Hold, Hi.
        -- apply in_or_app. right. simpl. tauto.
    + destruct (1 <? length (classes (run es)))%nat eqn:Hlen;
        [|split; [exact IHn | exact Hold]].
      unfold removeClass. rewrite Hlen. cbn [classes].
      split; [apply ids_filter_NoDup, IHn|].
      intros j Hj%ids_filter_incl. apply Hold, Hj.
    + destruct (length (classes (run es)) =? 0)%nat;
        split; solve [exact IHn | exact Hold].
Qed.

End Identifiers.

(** ** The capacity pre-check *)


(** C2: when the required period count exceeds the available capacity,
    [validateInputs] records the capacity error, whose message names both
    counts, and rejects; [handleGenerate] then returns with its error
    message and nothing is posted to the backend. *)
Theorem capacity_exceeded_rejected
    (classes : list ClassInput) (c : TimetableConstraints) :
  gt (Revised.totalPeriodsNeeded classes) (Revised.totalPeriodsAvailable c) = true ->
  Revised.validation_errors classes c !! "capacity"
  = Some ("Not enough time slots! Need "
            +:+ toString (Revised.totalPeriodsNeeded classes)
            +:+ " but only "
            +:+ toString (Revised.totalPeriodsAvailable c)
            +:+ " available.")
  /\ Revised.validateInputs classes c = false
  /\ Revised.handleGenerate classes c
     = Rejected "Please fix the validation errors above"
                (Revised.validation_errors classes c)
  /\ posted (Revised.handleGenerate classes c) = false.
Proof.
  intros Hgt.
  assert (Hcap : Revised.validation_errors classes c !! "capacity"
                 = Some (Revised.capacity_message
                           (Revised.totalPeriodsNeeded classes)
                           (Revised.totalPeriodsAvailable c))).
  { unfold Revised.validation_errors, Revised.check_capacity.
    rewrite Hgt. apply lookup_insert_eq. }
  assert (Hrej : Revised.validateInputs classes c = false)
    by (eapply validateInputs_false; rewrite Hcap; eauto).
  split; [exact Hcap|]. split; [exact Hrej|].
  rewrite (handleGenerate_rejects _ _ Hrej). split; reflexivity.
Qed.

(** Three classes of 30 periods a week over 5 days of 8 periods with a
    lunch break: 90 needed, 35 available. *)
Lemma capacity_exceeded_rejected_witness :
  gt (Revised.totalPeriodsNeeded three_heavy_classes)
     (Revised.totalPeriodsAvailable initial_constraints) = true
  /\ Revised.validation_errors three_heavy_classes initial_constraints !! "capacity"
     = Some "Not enough time slots! Need 90 but only 35 available."
  /\ posted (Revised.handleGenerate three_heavy_classes initial_constraints) = false.
Proof.
  split; [reflexivity|].
  pose proof (capacity_exceeded_rejected three_heavy_classes initial_constraints
                eq_refl) as (Hmsg & _ & _ & Hpost).
  split; [exact Hmsg | exact Hpost].
Defined.

(** C4: when the required period count equals the available capacity the
    capacity check records nothing, so that the errors are those of the
    other checks and, when these pass, [handleGenerate] posts the request;
    and one class of 5 periods a week under the initial constraints (35
    periods available) is posted. *)
Theorem capacity_boundary_accepted :
  (forall (classes : list ClassInput) (c : TimetableConstraints),
      Revised.totalPeriodsNeeded classes = Revised.totalPeriodsAvailable c ->
      Revised.validation_errors classes c !! "capacity" = None
      /\ Revised.validation_errors classes c
         = Revised.errors_before_capacity classes c
      /\ (Revised.errors_before_capacity classes c = ∅ ->
          Revised.handleGenerate classes c
          = Posted (Revised.trimmedClasses classes) c))
  /\ Revised.totalPeriodsAvailable initial_constraints = Num 35
  /\ Revised.handleGenerate [single_period_class] initial_constraints
     = Posted [single_period_class] initial_constraints.
Proof.
  split; [|split; reflexivity].
  intros classes c Heq.
  assert (Hsame : Revised.validation_errors classes c
                  = Revised.errors_before_capacity classes c).
  { unfold Revised.validation_errors, Revised.check_capacity.
    rewrite Heq, gt_irrefl. reflexivity. }
  rewrite Hsame. split; [apply errors_before_capacity_free|].
  split; [reflexivity|].
  intros Hnone. apply handleGenerate_posts, validateInputs_true.
  rewrite Hsame. exact Hnone.
Qed.

(** One class of 35 periods a week under the initial constraints: 35 needed,
    35 available, posted. *)
Lemma capacity_boundary_accepted_witness :
  Revised.totalPeriodsNeeded [full_week_class]
  = Revised.totalPeriodsAvailable initial_constraints
  /\ Revised.validation_errors [full_week_class] initial_constraints !! "capacity"
     = None
  /\ Revised.handleGenerate [full_week_class] initial_constraints
     = Posted [full_week_class] initial_constraints.
Proof.
  split; [reflexivity|].
  destruct (proj1 capacity_boundary_accepted [full_week_class] initial_constraints
              eq_refl) as (Hcap & _ & Hpost).
  split; [exact Hcap|]. apply Hpost. vm_compute. reflexivity.
Defined.

(** C5: with [d] active days of [p] periods, the available capacity is
    [d * p - d] when a lunch-break period is configured and [d * p] when
    none is. *)
Theorem available_capacity (c : TimetableConstraints) (p : Z) :
  periods_per_day c = Num p ->
  (lunch_configured c ->
   Revised.totalPeriodsAvailable c
   = Num (Z.of_nat (length (days_per_week c)) * p
          - Z.of_nat (length (days_per_week c))))
  /\ (~ lunch_configured c ->
      Revised.totalPeriodsAvailable c
      = Num (Z.of_nat (length (days_per_week c)) * p)).
Proof.
  intros Hp. rewrite (totalPeriodsAvailable_Num c p Hp).
  unfold lunch_configured. split.
  - intros (l & -> & Hl). simpl.
    destruct (l =? 0) eqn:E; [lia | reflexivity].
  - intros Hno. destruct (lunch_break_period c) as [[|l]|]; simpl;
      try (f_equal; lia).
    destruct (l =? 0) eqn:E; simpl; [f_equal; lia|].
    exfalso. apply Hno. exists l. split; [reflexivity | lia].
Qed.

(** The initial constraints, 5 days of 8 periods with lunch at period 4,
    leave 35 periods; without the lunch break they leave 40. *)
Lemma available_capacity_witness :
  Revised.totalPeriodsAvailable initial_constraints = Num 35
  /\ Revised.totalPeriodsAvailable
       (with_lunch_break_period initial_constraints None) = Num 40.
Proof.
  split.
  - apply (proj1 (available_capacity initial_constraints 8 eq_refl)).
    exists 4. split; [reflexivity | lia].
  - apply (proj2 (available_capacity
                    (with_lunch_break_period initial_constraints None) 8 eq_refl)).
    intros (l & Hl & _). discriminate.
Defined.

(** ** Names and teachers *)

(** C3, as the code has it: in the revised form a class whose name or
    teacher is empty or white space only has an error recorded under its
    own name or teacher property, [validateInputs] rejects and
    [handleGenerate] returns without posting; the original form returns
    without posting for a class whose name or teacher is the empty
    string. *)
Theorem blank_class_rejected
    (classes : list ClassInput) (c : TimetableConstraints) (cls : ClassInput) :
  In cls classes ->
  (blank (name cls) = true ->
   is_Some (Revised.validation_errors classes c
              !! Revised.class_key (id cls) "name")
   /\ Revised.handleGenerate classes c
      = Rejected "Please fix the validation errors above"
                 (Revised.validation_errors classes c))
  /\ (blank (teacher cls) = true ->
      is_Some (Revised.validation_errors classes c
                 !! Revised.class_key (id cls) "teacher")
      /\ Revised.handleGenerate classes c
         = Rejected "Please fix the validation errors above"
                    (Revised.validation_errors classes c))
  /\ (name cls = [] \/ teacher cls = [] ->
      Original.handleGenerate classes c
      = Rejected "Please fill in all class names and teachers" ∅).
Proof.
  intros Hin.
  assert (Hrep : forall field,
    (forall m, is_Some (Revised.validate_class c m cls
                          !! Revised.class_key (id cls) field)) ->
    is_Some (Revised.validation_errors classes c
               !! Revised.class_key (id cls) field)
    /\ Revised.handleGenerate classes c
       = Rejected "Please fix the validation errors above"
                  (Revised.validation_errors classes c)).
  { intros field Hcls.
    assert (Hsome : is_Some (Revised.validation_errors classes c
                               !! Revised.class_key (id cls) field))
      by (apply validation_errors_extends, validate_classes_reports; assumption).
    split; [exact Hsome|].
    eapply handleGenerate_rejects, validateInputs_false, Hsome. }
  split; [|split].
  - intros Hb. apply Hrep. intros m. apply validate_class_name, Hb.
  - intros Hb. apply Hrep. intros m. apply validate_class_teacher, Hb.
  - intros Hempty. unfold Original.handleGenerate.
    assert (Hmem : In cls (Original.emptyClasses classes)).
    { apply List.filter_In. split; [exact Hin|].
      destruct Hempty as [-> | ->]; [reflexivity | apply orb_true_r]. }
    destruct (Original.emptyClasses classes); [destruct Hmem | reflexivity].
Qed.

(** The initial class, whose name and teacher are empty, in both forms;
    and, in the revised form, a class whose name is an ideographic space
    (U+3000) followed by a line separator (U+2028). *)
Lemma blank_class_rejected_witness :
  posted (Revised.handleGenerate initial_classes initial_constraints) = false
  /\ posted (Original.handleGenerate initial_classes initial_constraints) = false
  /\ posted (Revised.handleGenerate
               [mkClass "1" [12288%N; 8232%N] (utf16 "Mr. Smith")
                        (Num 5) (Num 1) None]
               initial_constraints) = false.
Proof.
  destruct (blank_class_rejected initial_classes initial_constraints
              (mkClass "1" [] [] (Num 5) (Num 1) None)
              (or_introl eq_refl)) as (Hname & _ & Horig).
  destruct (Hname eq_refl) as [_ Hrev].
  destruct (blank_class_rejected
              [mkClass "1" [12288%N; 8232%N] (utf16 "Mr. Smith")
                       (Num 5) (Num 1) None]
              initial_constraints
              (mkClass "1" [12288%N; 8232%N] (utf16 "Mr. Smith")
                       (Num 5) (Num 1) None)
              (or_introl eq_refl)) as (Hwide & _).
  destruct (Hwide eq_refl) as [_ Hrev'].
  rewrite Hrev, Hrev', (Horig (or_introl eq_refl)). repeat split.
Defined.

(** C3, refuted as stated: the original form posts a class whose name and
    teacher are a single space. *)
Lemma original_posts_whitespace_names :
  blank (name spaces_class) = true
  /\ blank (teacher spaces_class) = true
  /\ Original.handleGenerate [spaces_class] initial_constraints
     = Posted [spaces_class] initial_constraints.
Proof. repeat split; reflexivity. Qed.

(** ** The two forms compared *)

(** C10, as the code has it: whatever the revised [validateInputs] accepts,
    the original [handleGenerate] posts. *)
Theorem revised_acceptance_implies_original
    (classes : list ClassInput) (c : TimetableConstraints) :
  Revised.validateInputs classes c = true ->
  Original.handleGenerate classes c = Posted classes c.
Proof.
  intros Hacc. unfold Original.handleGenerate.
  destruct (Original.emptyClasses classes) as [|cls rest] eqn:Hempty;
    [reflexivity|].
  exfalso.
  assert (Hmem : In cls (Original.emptyClasses classes))
    by (rewrite Hempty; left; reflexivity).
  apply List.filter_In in Hmem as [Hin Htest].
  assert (Hrej : Revised.validateInputs classes c = false); [|congruence].
  apply orb_true_iff in Htest as [Hn | Ht].
  - apply (validateInputs_false _ _ (Revised.class_key (id cls) "name")).
    apply validation_errors_extends, validate_classes_reports; [exact Hin|].
    intros m. apply validate_class_name.
    destruct (name cls); [reflexivity | discriminate].
  - apply (validateInputs_false _ _ (Revised.class_key (id cls) "teacher")).
    apply validation_errors_extends, validate_classes_reports; [exact Hin|].
    intros m. apply validate_class_teacher.
    destruct (teacher cls); [reflexivity | discriminate].
Qed.

(** One class of 5 periods a week is accepted by the revised form and
    posted by the original one. *)
Lemma revised_acceptance_implies_original_witness :
  Revised.validateInputs [single_period_class] initial_constraints = true
  /\ Original.handleGenerate [single_period_class] initial_constraints
     = Posted [single_period_class] initial_constraints.
Proof.
  split; [reflexivity|].
  apply (revised_acceptance_implies_original [single_period_class]
           initial_constraints).
  reflexivity.
Defined.

(** C10, refuted as stated: the original form posts a class whose name and
    teacher are a single space, and posts three classes that need 90 of
    35 periods; the revised [validateInputs] rejects both. *)
Lemma original_posts_what_revised_rejects :
  posted (Original.handleGenerate [spaces_class] initial_constraints) = true
  /\ Revised.validateInputs [spaces_class] initial_constraints = false
  /\ posted (Original.handleGenerate three_heavy_classes initial_constraints) = true
  /\ Revised.validateInputs three_heavy_classes initial_constraints = false.
Proof. repeat split; vm_compute; reflexivity. Qed.

(** ** The form handlers *)

(** C6: after every sequence of events of either form at most one of
    [prefer_morning] and [prefer_afternoon] is set, and ticking one
    preference clears the other. *)
Theorem preferences_mutually_exclusive :
  (forall es, at_most_one_preference
                (Original.constraints (Original.run es)))
  /\ (forall es, at_most_one_preference
                   (Revised.constraints (Revised.run es)))
  /\ (forall f,
        prefer_morning (Original.constraints
          (Original.step f (Original.CheckPreferMorning true))) = true
        /\ prefer_afternoon (Original.constraints
          (Original.step f (Original.CheckPreferMorning true))) = false
        /\ prefer_afternoon (Original.constraints
          (Original.step f (Original.CheckPreferAfternoon true))) = true
        /\ prefer_morning (Original.constraints
          (Original.step f (Original.CheckPreferAfternoon true))) = false)
  /\ (forall f,
        prefer_morning (Revised.constraints
          (Revised.step f (Revised.CheckPreferMorning true))) = true
        /\ prefer_afternoon (Revised.constraints
          (Revised.step f (Revised.CheckPreferMorning true))) = false
        /\ prefer_afternoon (Revised.constraints
          (Revised.step f (Revised.CheckPreferAfternoon true))) = true
        /\ prefer_morning (Revised.constraints
          (Revised.step f (Revised.CheckPreferAfternoon true))) = false).
Proof.
  split; [|split; [|split]].
  - intros es. apply original_steps_preferences. reflexivity.
  - intros es. apply revised_steps_preferences. reflexivity.
  - intros f. repeat split.
  - intros f. repeat split.
Qed.

(** C7, on the original form: adding two classes, removing the first class
    and adding one more leaves two classes under the identifier 3. *)
Theorem original_ids_collide :
  ids (Original.classes
         (Original.run
            [Original.AddClass; Original.AddClass;
             Original.RemoveClass "1"; Original.AddClass]))
  = ["2"; "3"; "3"]
  /\ ~ NoDup (ids (Original.classes
                     (Original.run
                        [Original.AddClass; Original.AddClass;
                         Original.RemoveClass "1"; Original.AddClass]))).
Proof.
  assert (Hids : ids (Original.classes
                        (Original.run
                           [Original.AddClass; Original.AddClass;
                            Original.RemoveClass "1"; Original.AddClass]))
                 = ["2"; "3"; "3"]) by (vm_compute; reflexivity).
  split; [exact Hids|]. rewrite Hids.
  intros Hnd. apply NoDup_cons in Hnd as [_ Hnd].
  apply NoDup_cons in Hnd as [Hnot _].
  apply Hnot. apply list_elem_of_here.
Qed.

(** C8, as the code has it: after every sequence of events of the revised
    form, whatever the number inputs parse to, [periods_per_day] is an
    integer from 4 to 12 and the [periods_per_week] of every class an
    integer from 1 to 40. *)
Theorem revised_bounds_kept (es : list Revised.event) :
  in_range 4 12 (periods_per_day (Revised.constraints (Revised.run es)))
  /\ Forall (fun cls => in_range 1 40 (periods_per_week cls))
            (Revised.classes (Revised.run es)).
Proof.
  destruct (run_well_formed es) as [Hd Hc]. split; [exact Hd|].
  eapply Forall_impl; [exact Hc|]. intros cls [Hp _]. exact Hp.
Qed.

(** C8, refuted as stated: the original form stores [NaN] as
    [periods_per_day] when the input does not parse, and 99 as the
    [periods_per_week] of the class when 99 is typed. *)
Lemma original_bounds_not_kept :
  periods_per_day
    (Original.constraints
       (Original.run [Original.ChangePeriodsPerDay NaN])) = NaN
  /\ ~ in_range 4 12
       (periods_per_day
          (Original.constraints
             (Original.run [Original.ChangePeriodsPerDay NaN])))
  /\ map periods_per_week
       (Original.classes
          (Original.run [Original.ChangePeriodsPerWeek "1" (Num 99)]))
     = [Num 99].
Proof. split; [reflexivity|]. split; [intros []|reflexivity]. Qed.

(** What the lunch-break handler of the revised form stores for an input
    that is not negative: [null] for zero, a period from 1 to
    [periods_per_day] for a positive integer. *)
Lemma revised_lunch_break_nonnegative (es : list Revised.event) (z : Z) :
  0 <= z ->
  match lunch_break_period
          (Revised.constraints
             (Revised.run (es ++ [Revised.ChangeLunchBreak (Num z)])))
  with
  | None => z = 0
  | Some l =>
      0 < z /\ between (Num 1) l
                 (periods_per_day
                    (Revised.constraints
                       (Revised.run (es ++ [Revised.ChangeLunchBreak (Num z)]))))
  end.
Proof.
  intros Hz. rewrite run_snoc. cbn [Revised.step Revised.constraints].
  pose proof (wf_periods_per_day _ (run_well_formed es)) as Hd.
  unfold Revised.lunch_break_period_of. simpl.
  destruct (periods_per_day (Revised.constraints (Revised.run es)))
    as [|p]; [destruct Hd|].
  simpl in *. destruct (z =? 0) eqn:E; [lia|]. split; lia.
Qed.

(** C9, on the revised form: the lunch-break input -1 stores 0, which is
    neither [null] nor a period from 1 to 8, and an input that does not
    parse stores [NaN]; with 0 stored, the form of a named class passes
    validation and posts the constraints with lunch period 0. *)
Theorem lunch_break_zero_stored :
  lunch_break_period
    (Revised.constraints
       (Revised.run [Revised.ChangeLunchBreak (Num (-1))]))
  = Some (Num 0)
  /\ periods_per_day
       (Revised.constraints
          (Revised.run [Revised.ChangeLunchBreak (Num (-1))]))
     = Num 8
  /\ lunch_break_period
       (Revised.constraints (Revised.run [Revised.ChangeLunchBreak NaN]))
     = Some NaN
  /\ Revised.handleGenerate
       (Revised.classes
          (Revised.run [Revised.ChangeName "1" (utf16 "Mathematics");
                        Revised.ChangeTeacher "1" (utf16 "Mr. Smith");
                        Revised.ChangeLunchBreak (Num (-1))]))
       (Revised.constraints
          (Revised.run [Revised.ChangeName "1" (utf16 "Mathematics");
                        Revised.ChangeTeacher "1" (utf16 "Mr. Smith");
                        Revised.ChangeLunchBreak (Num (-1))]))
     = Posted [single_period_class]
              (with_lunch_break_period initial_constraints (Some (Num 0))).
Proof. repeat split; vm_compute; reflexivity. Qed.

(** ** Further properties of the revised validation *)

Section ErrorKeys.

Import Revised.

Lemma append_cons (a : ascii) (s t : string) :
  String a s +:+ t = String a (s +:+ t).
Proof. reflexivity. Qed.

Lemma append_nil (t : string) : "" +:+ t = t.
Proof. reflexivity. Qed.

Lemma append_empty (s : string) : s +:+ "" = s.
Proof.
  induction s as [|a s IH]; rewrite ?append_cons, ?append_nil;
    [reflexivity | f_equal; exact IH].
Qed.

Lemma append_last_char (s t : string) (a b : ascii) :
  s +:+ String a "" = t +:+ String b "" -> s = t /\ a = b.
Proof.
  revert t. induction s as [|x s IH]; intros [|y t];
    rewrite ?append_cons, ?append_nil; intros H.
  - injection H as ->. auto.
  - injection H as -> H. destruct t; discriminate.
  - injection H as -> H. destruct s; discriminate.
  - injection H as -> H. destruct (IH _ H) as [-> ->]. auto.
Qed.

Lemma append_assoc (s t u : string) : (s +:+ t) +:+ u = s +:+ (t +:+ u).
Proof.
  induction s as [|a s IH]; rewrite ?append_cons, ?append_nil;
    [reflexivity | f_equal; exact IH].
Qed.

Lemma append_cancel_r (u s t : string) : s +:+ u = t +:+ u -> s = t.
Proof.
  revert s t. induction u as [|a u IH]; intros s t H.
  - rewrite !append_empty in H. exact H.
  - change (String a u) with (String a "" +:+ u) in H.
    rewrite <- !append_assoc in H. apply IH in H.
    apply append_last_char in H. tauto.
Qed.

Lemma append_cancel_l (u s t : string) : u +:+ s = u +:+ t -> s = t.
Proof.
  induction u as [|a u IH]; rewrite ?append_cons, ?append_nil; intros H;
    [exact H | injection H as H; auto].
Qed.

Lemma list_of_append (s t : string) :
  list_ascii_of_string (s +:+ t)
  = list_ascii_of_string s ++ list_ascii_of_string t.
Proof.
  induction s as [|a s IH]; rewrite ?append_cons, ?append_nil; simpl;
    [reflexivity | f_equal; exact IH].
Qed.

Lemma last_char_append (s : string) (a : ascii) (t : string) :
  last (list_ascii_of_string (s +:+ String a t))
  = last (list_ascii_of_string (String a t)).
Proof.
  rewrite list_of_append, last_app.
  destruct (last (list_ascii_of_string (String a t))) eqn:E; [reflexivity|].
  apply last_None in E. discriminate.
Qed.

(** The name of an error property tells the class and the field: two
    classes, or two fields of a class, never share a property. *)
Lemma class_key_inj (i j f g : string) :
  error_field f -> error_field g ->
  class_key i f = class_key j g -> i = j /\ f = g.
Proof.
  intros Hf Hg H. unfold class_key in H.
  apply append_cancel_l in H.
  assert (Hfg : f = g).
  { pose proof (f_equal (fun s => last (list_ascii_of_string s)) H) as Hl.
    cbv beta in Hl. rewrite <- !append_assoc in Hl.
    destruct Hf as [-> | [-> | [-> | ->]]], Hg as [-> | [-> | [-> | ->]]];
      try reflexivity; exfalso;
      rewrite !last_char_append in Hl; discriminate. }
  subst g. split; [|reflexivity].
  rewrite <- !append_assoc in H. apply append_cancel_r in H.
  apply append_last_char in H. tauto.
Qed.

End ErrorKeys.

Section Acceptance.

Import Revised.

Lemma size_list_to_set_le (l : list string) :
  (size (list_to_set l : gset string) <= length l)%nat.
Proof.
  induction l as [|x l IH].
  - rewrite list_to_set_nil, size_empty. simpl. lia.
  - rewrite list_to_set_cons, size_union_alt, size_singleton. simpl length.
    pose proof (subseteq_size (list_to_set l ∖ {[x]}) (list_to_set l : gset string)
                  ltac:(set_solver)).
    lia.
Qed.

(** The test on [new Set(ids).size] is exact: it fires on the lists with a
    repeated identifier and on no other. *)
Lemma has_duplicate_ids_iff (l : list string) :
  has_duplicate_ids l = false <-> NoDup l.
Proof.
  unfold has_duplicate_ids. rewrite negb_false_iff, Nat.eqb_eq. split.
  - induction l as [|x l IH]; [constructor|].
    rewrite list_to_set_cons. simpl length. intros Hsize.
    pose proof (size_list_to_set_le l) as Hle.
    destruct (decide (x ∈ (list_to_set l : gset string))) as [Hin | Hnin].
    + assert (Heq : {[x]} ∪ list_to_set l = (list_to_set l : gset string))
        by set_solver.
      rewrite Heq in Hsize. lia.
    + rewrite size_union, size_singleton in Hsize by set_solver.
      constructor; [set_solver | apply IH; lia].
  - apply size_list_to_set.
Qed.

Lemma passes_range_tests (lo hi : Z) (x : number) :
  lt x (Num lo) || gt x (Num hi) = false <-> passes_range lo hi x.
Proof.
  destruct x as [|z]; simpl; [tauto|].
  unfold gt, lt. rewrite orb_false_iff, !Z.ltb_ge. lia.
Qed.

Lemma exceeds_test (x y : number) : gt x y = true <-> exceeds x y.
Proof.
  destruct x as [|a], y as [|b]; simpl; try (split; [discriminate | tauto]).
  unfold gt, lt. apply Z.ltb_lt.
Qed.

Lemma text_ok_tests (s : text) :
  text_ok s <->
  not_text s || not_text (trim s) = false
  /\ gt (text_length (trim s)) (Num 100) = false.
Proof.
  rewrite required_test. unfold text_ok, gt, lt, text_length.
  rewrite Z.ltb_ge. split; intros [H1 H2]; (split; [exact H1 | lia]).
Qed.

(** A check that records something leaves [errors] non-empty. *)
Lemma insert_not_empty (k v : string) (m : gmap string string) :
  <[k := v]> m <> ∅.
Proof. apply insert_non_empty. Qed.

Lemma extends_empty (m m' : gmap string string) :
  extends m m' -> m' = ∅ -> m = ∅.
Proof.
  intros Hext ->. apply map_empty. intros k.
  destruct (m !! k) eqn:E; [|reflexivity].
  destruct (Hext k ltac:(eauto)) as [v Hv]. rewrite lookup_empty in Hv.
  discriminate.
Qed.

Lemma check_name_silent cls m :
  check_name cls m = ∅ <-> m = ∅ /\ text_ok (name cls).
Proof.
  rewrite text_ok_tests. unfold check_name.
  destruct (not_text (name cls) || not_text (trim (name cls)));
    [|destruct (gt (text_length (trim (name cls))) (Num 100))];
    split; try (intros H; apply insert_not_empty in H; destruct H);
    try (intros [_ [? ?]]; discriminate); tauto.
Qed.

Lemma check_teacher_silent cls m :
  check_teacher cls m = ∅ <-> m = ∅ /\ text_ok (teacher cls).
Proof.
  rewrite text_ok_tests. unfold check_teacher.
  destruct (not_text (teacher cls) || not_text (trim (teacher cls)));
    [|destruct (gt (text_length (trim (teacher cls))) (Num 100))];
    split; try (intros H; apply insert_not_empty in H; destruct H);
    try (intros [_ [? ?]]; discriminate); tauto.
Qed.

Lemma check_periods_silent cls m :
  check_periods cls m = ∅ <-> m = ∅ /\ passes_range 1 40 (periods_per_week cls).
Proof.
  rewrite <- passes_range_tests. unfold check_periods.
  destruct (lt (periods_per_week cls) (Num 1) || gt (periods_per_week cls) (Num 40));
    split; try (intros H; apply insert_not_empty in H; destruct H);
    try (intros [_ ?]; discriminate); tauto.
Qed.

Lemma check_duration_silent c cls m :
  check_duration c cls m = ∅ <->
  m = ∅ /\ passes_range 1 4 (duration cls)
  /\ ~ exceeds (duration cls) (periods_per_day c).
Proof.
  rewrite <- passes_range_tests, <- exceeds_test. unfold check_duration.
  cbv zeta.
  destruct (gt (duration cls) (periods_per_day c));
    destruct (lt (duration cls) (Num 1) || gt (duration cls) (Num 4));
    split; intros H;
    try (apply insert_not_empty in H; destruct H);
    try (destruct H as (Hm & Hr & Hg);
         first [discriminate Hr | exfalso; apply Hg; reflexivity | exact Hm]).
  repeat split; [exact H | discriminate].
Qed.

Lemma validate_class_silent c cls m :
  validate_class c m cls = ∅ <-> m = ∅ /\ class_accepted c cls.
Proof.
  unfold validate_class, class_accepted.
  rewrite check_duration_silent, check_periods_silent, check_teacher_silent,
    check_name_silent.
  tauto.
Qed.

Lemma validate_classes_silent c classes m :
  fold_left (validate_class c) classes m = ∅ <->
  m = ∅ /\ Forall (class_accepted c) classes.
Proof.
  revert m. induction classes as [|cls classes IH]; intros m; simpl.
  - split; [intros ->; split; [reflexivity | constructor] | tauto].
  - rewrite IH, validate_class_silent, Forall_cons. tauto.
Qed.

Lemma check_lunch_silent c m :
  check_lunch c m = ∅ <-> m = ∅ /\ lunch_accepted c.
Proof.
  unfold check_lunch, lunch_accepted.
  destruct (lunch_break_period c) as [l|];
    [|split; [intros ->; split; [reflexivity | discriminate] | tauto]].
  destruct (truthy l && gt l (periods_per_day c)) eqn:Htest.
  - split; [intros H; apply insert_not_empty in H; destruct H|].
    intros [_ Hacc]. exfalso.
    apply andb_true_iff in Htest as [Ht Hg]. apply exceeds_test in Hg.
    destruct l as [|z]; [discriminate|].
    apply (Hacc z); [reflexivity | | exact Hg].
    simpl in Ht. destruct (z =? 0) eqn:E; [discriminate | lia].
  - split; [|tauto]. intros ->. split; [reflexivity|].
    intros z [= ->] Hz Hex. apply exceeds_test in Hex.
    rewrite Hex, andb_true_r in Htest. simpl in Htest.
    destruct (z =? 0) eqn:E; [lia | discriminate].
Qed.

End Acceptance.

Section ErrorLookup.

Import Revised.

(** Looking up a property after one check of the loop. *)
Lemma check_name_other cls m k :
  k <> class_key (id cls) "name" -> check_name cls m !! k = m !! k.
Proof.
  intros Hk. unfold check_name.
  repeat match goal with |- context [if ?b then _ else _] => destruct b end;
    rewrite ?lookup_insert_ne by congruence; reflexivity.
Qed.

Lemma check_teacher_other cls m k :
  k <> class_key (id cls) "teacher" -> check_teacher cls m !! k = m !! k.
Proof.
  intros Hk. unfold check_teacher.
  repeat match goal with |- context [if ?b then _ else _] => destruct b end;
    rewrite ?lookup_insert_ne by congruence; reflexivity.
Qed.

Lemma check_periods_other cls m k :
  k <> class_key (id cls) "periods" -> check_periods cls m !! k = m !! k.
Proof.
  intros Hk. unfold check_periods.
  repeat match goal with |- context [if ?b then _ else _] => destruct b end;
    rewrite ?lookup_insert_ne by congruence; reflexivity.
Qed.

Lemma check_duration_other c cls m k :
  k <> class_key (id cls) "duration" -> check_duration c cls m !! k = m !! k.
Proof.
  intros Hk. unfold check_duration. cbv zeta.
  repeat match goal with |- context [if ?b then _ else _] => destruct b end;
    rewrite ?lookup_insert_ne by congruence; reflexivity.
Qed.

Lemma error_field_name : error_field "name".
Proof. left; reflexivity. Qed.

Lemma error_field_teacher : error_field "teacher".
Proof. right; left; reflexivity. Qed.

Lemma error_field_periods : error_field "periods".
Proof. right; right; left; reflexivity. Qed.

Lemma error_field_duration : error_field "duration".
Proof. right; right; right; reflexivity. Qed.

(** A property that is not one of the four of the class is left alone by
    the callback. *)
Lemma validate_class_other c m cls k :
  (forall f, error_field f -> k <> class_key (id cls) f) ->
  validate_class c m cls !! k = m !! k.
Proof.
  intros Hk. unfold validate_class.
  rewrite check_duration_other by (apply Hk, error_field_duration).
  rewrite check_periods_other by (apply Hk, error_field_periods).
  rewrite check_teacher_other by (apply Hk, error_field_teacher).
  apply check_name_other, Hk, error_field_name.
Qed.

Lemma validate_classes_other c classes m k :
  (forall cls f, In cls classes -> error_field f -> k <> class_key (id cls) f) ->
  fold_left (validate_class c) classes m !! k = m !! k.
Proof.
  revert m. induction classes as [|cls classes IH]; intros m Hk; simpl;
    [reflexivity|].
  rewrite IH by (intros; apply Hk; [right|]; assumption).
  apply validate_class_other. intros f Hf. apply Hk; [left; reflexivity | exact Hf].
Qed.

(** What the callback leaves under each of the four properties of its
    class, on an [errors] object that did not have the property. *)
Lemma validate_class_own_name c m cls :
  m !! class_key (id cls) "name" = None ->
  validate_class c m cls !! class_key (id cls) "name"
  = if blank (name cls) then Some "Class name is required"
    else if gt (text_length (trim (name cls))) (Num 100)
         then Some "Class name too long (max 100 chars)"
         else None.
Proof.
  intros Hm. unfold validate_class.
  rewrite check_duration_other, check_periods_other, check_teacher_other
    by (intros [_ [=]]%class_key_inj;
        auto using error_field_name, error_field_teacher,
                   error_field_periods, error_field_duration).
  unfold check_name. rewrite required_test.
  repeat match goal with |- context [if ?b then _ else _] => destruct b end;
    rewrite ?lookup_insert_eq; auto.
Qed.

Lemma validate_class_own_teacher c m cls :
  m !! class_key (id cls) "teacher" = None ->
  validate_class c m cls !! class_key (id cls) "teacher"
  = if blank (teacher cls) then Some "Teacher name is required"
    else if gt (text_length (trim (teacher cls))) (Num 100)
         then Some "Teacher name too long (max 100 chars)"
         else None.
Proof.
  intros Hm. unfold validate_class.
  rewrite check_duration_other, check_periods_other
    by (intros [_ [=]]%class_key_inj;
        auto using error_field_name, error_field_teacher,
                   error_field_periods, error_field_duration).
  assert (Hn : check_name cls m !! class_key (id cls) "teacher" = None).
  { rewrite check_name_other; [exact Hm|].
    intros [_ [=]]%class_key_inj;
      auto using error_field_name, error_field_teacher. }
  revert Hn. generalize (check_name cls m). intros m' Hn.
  unfold check_teacher. rewrite required_test.
  repeat match goal with |- context [if ?b then _ else _] => destruct b end;
    rewrite ?lookup_insert_eq; auto.
Qed.

Lemma validate_class_own_periods c m cls :
  m !! class_key (id cls) "periods" = None ->
  validate_class c m cls !! class_key (id cls) "periods"
  = if lt (periods_per_week cls) (Num 1) || gt (periods_per_week cls) (Num 40)
    then Some "Periods must be between 1-40" else None.
Proof.
  intros Hm. unfold validate_class.
  rewrite check_duration_other
    by (intros [_ [=]]%class_key_inj;
        auto using error_field_periods, error_field_duration).
  assert (Hn : check_teacher cls (check_name cls m)
                 !! class_key (id cls) "periods" = None).
  { rewrite check_teacher_other, check_name_other; [exact Hm| |];
      intros [_ [=]]%class_key_inj;
      auto using error_field_name, error_field_teacher, error_field_periods. }
  revert Hn. generalize (check_teacher cls (check_name cls m)). intros m' Hn.
  unfold check_periods.
  repeat match goal with |- context [if ?b then _ else _] => destruct b end;
    rewrite ?lookup_insert_eq; auto.
Qed.

Lemma validate_class_own_duration c m cls :
  m !! class_key (id cls) "duration" = None ->
  validate_class c m cls !! class_key (id cls) "duration"
  = if gt (duration cls) (periods_per_day c)
    then Some ("Duration cannot exceed periods per day ("
                 +:+ toString (periods_per_day c) +:+ ")")
    else if lt (duration cls) (Num 1) || gt (duration cls) (Num 4)
         then Some "Duration must be between 1-4" else None.
Proof.
  intros Hm. unfold validate_class.
  assert (Hn : check_periods cls (check_teacher cls (check_name cls m))
                 !! class_key (id cls) "duration" = None).
  { rewrite check_periods_other, check_teacher_other, check_name_other;
      [exact Hm| | |];
      intros [_ [=]]%class_key_inj;
      auto using error_field_name, error_field_teacher, error_field_periods,
                 error_field_duration. }
  revert Hn.
  generalize (check_periods cls (check_teacher cls (check_name cls m))).
  intros m' Hn. unfold check_duration. cbv zeta.
  repeat match goal with |- context [if ?b then _ else _] => destruct b end;
    rewrite ?lookup_insert_eq; auto.
Qed.

(** With distinct identifiers, the properties of a class are written by
    the callback on that class alone. *)
Lemma validate_classes_own c classes cls f m :
  NoDup (ids classes) -> In cls classes -> error_field f ->
  (forall cls', In cls' classes -> m !! class_key (id cls') f = None) ->
  exists m', m' !! class_key (id cls) f = None
    /\ fold_left (validate_class c) classes m !! class_key (id cls) f
       = validate_class c m' cls !! class_key (id cls) f.
Proof.
  intros Hnd Hin Hf. revert m.
  induction classes as [|cls' classes IH]; [destruct Hin|].
  intros m Hm. simpl in Hnd. apply NoDup_cons in Hnd as [Hfresh Hnd]. simpl.
  destruct Hin as [-> | Hin].
  - exists m. split; [apply Hm; left; reflexivity|].
    apply validate_classes_other. intros cls2 g Hin2 Hg [Hid _]%class_key_inj;
      [|exact Hf | exact Hg].
    apply Hfresh. rewrite Hid. apply list_elem_of_In, in_map, Hin2.
  - apply IH; [exact Hnd | exact Hin|].
    intros cls2 Hin2. rewrite validate_class_other; [apply Hm; right; exact Hin2|].
    intros g Hg [Hid _]%class_key_inj; [|exact Hf | exact Hg].
    apply Hfresh. rewrite <- Hid. apply list_elem_of_In, in_map, Hin2.
Qed.

End ErrorLookup.

Section TrimAgain.

Lemma trimStart_idem (s : text) : trimStart (trimStart s) = trimStart s.
Proof.
  induction s as [|u s IH]; [reflexivity|].
  simpl. destruct (is_white_space u) eqn:Hu; [exact IH|].
  simpl. rewrite Hu. reflexivity.
Qed.

Lemma trimEnd_cons (u : N) (s : text) :
  trimEnd (u :: s)
  = match trimEnd s with
    | [] => if is_white_space u then [] else [u]
    | t => u :: t
    end.
Proof. reflexivity. Qed.

Lemma trimEnd_cons_keep (u : N) (s : text) :
  is_white_space u = false -> exists t, trimEnd (u :: s) = u :: t.
Proof.
  intros Hu. rewrite trimEnd_cons, Hu. destruct (trimEnd s); eauto.
Qed.

Lemma trimEnd_idem (s : text) : trimEnd (trimEnd s) = trimEnd s.
Proof.
  induction s as [|u s IH]; [reflexivity|].
  rewrite trimEnd_cons. destruct (trimEnd s) as [|v t] eqn:Hs.
  - destruct (is_white_space u) eqn:Hu; [reflexivity|].
    rewrite trimEnd_cons, Hu. reflexivity.
  - rewrite trimEnd_cons, IH. reflexivity.
Qed.

Lemma trimStart_trimEnd (s : text) :
  trimStart (trimEnd s) = trimEnd (trimStart s).
Proof.
  induction s as [|u s IH]; [reflexivity|].
  destruct (is_white_space u) eqn:Hu.
  - change (trimStart (u :: s)) with
      (if is_white_space u then trimStart s else u :: s).
    rewrite Hu, <- IH, trimEnd_cons.
    destruct (trimEnd s) as [|v t]; [rewrite Hu; reflexivity|].
    simpl. rewrite Hu. reflexivity.
  - destruct (trimEnd_cons_keep u s Hu) as [t Ht].
    simpl trimStart at 2. rewrite Hu, Ht. simpl. rewrite Hu. reflexivity.
Qed.

(** Trimming twice is trimming once. *)
Lemma trim_idem (s : text) : trim (trim s) = trim s.
Proof.
  unfold trim.
  rewrite (trimStart_trimEnd (trimStart s)), trimStart_idem.
  apply trimEnd_idem.
Qed.

Lemma text_ok_trim (s : text) : text_ok s -> text_ok (trim s).
Proof.
  intros [Hb Hl]. split; [|rewrite trim_idem; exact Hl].
  destruct (blank (trim s)) eqn:E; [|reflexivity].
  apply trim_empty_iff in E. rewrite trim_idem in E.
  apply trim_empty_iff in E. congruence.
Qed.

Lemma text_ok_not_empty (s : text) : text_ok s -> trim s <> [].
Proof. intros [Hb _] E. apply trim_empty_iff in E. congruence. Qed.

End TrimAgain.

(** ** What the revised form accepts, and what it reports *)

Section FormLevel.

Import Revised.

Lemma check_duplicates_silent classes m :
  check_duplicates classes m = ∅ <-> m = ∅ /\ NoDup (ids classes).
Proof.
  unfold check_duplicates. rewrite <- has_duplicate_ids_iff. fold (ids classes).
  destruct (has_duplicate_ids (ids classes));
    split; try (intros H; apply insert_not_empty in H; destruct H);
    try (intros [_ ?]; discriminate); tauto.
Qed.

Lemma check_capacity_silent classes c m :
  check_capacity classes c m = ∅ <->
  m = ∅ /\ ~ exceeds (totalPeriodsNeeded classes) (totalPeriodsAvailable c).
Proof.
  unfold check_capacity. rewrite <- exceeds_test.
  destruct (gt (totalPeriodsNeeded classes) (totalPeriodsAvailable c));
    split; try (intros H; apply insert_not_empty in H; destruct H);
    try (intros [_ H]; exfalso; apply H; reflexivity).
  - intros ->. split; [reflexivity | discriminate].
  - tauto.
Qed.

Lemma class_key_not_form_level (i f : string) :
  class_key i f <> "general" /\ class_key i f <> "lunch"
  /\ class_key i f <> "capacity".
Proof. unfold class_key. repeat split; discriminate. Qed.

Lemma loop_leaves_form_level c classes k :
  k = "general" \/ k = "lunch" \/ k = "capacity" ->
  fold_left (validate_class c) classes ∅ !! k = None.
Proof.
  intros Hk. rewrite validate_classes_other; [apply lookup_empty|].
  intros cls f _ _ E. destruct (class_key_not_form_level (id cls) f) as (? & ? & ?).
  destruct Hk as [-> | [-> | ->]]; congruence.
Qed.

Lemma validation_errors_class_key classes c i f :
  validation_errors classes c !! class_key i f
  = fold_left (validate_class c) classes ∅ !! class_key i f.
Proof.
  destruct (class_key_not_form_level i f) as (Hg & Hl & Hc).
  unfold validation_errors, errors_before_capacity, check_capacity,
    check_lunch, check_duplicates.
  repeat match goal with
    | |- context [if ?b then _ else _] => destruct b
    | |- context [match ?o with Some _ => _ | None => _ end] => destruct o
    end;
    rewrite ?lookup_insert_ne by congruence; reflexivity.
Qed.

End FormLevel.

Lemma validateInputs_conditions
    (classes : list ClassInput) (c : TimetableConstraints) :
  Revised.validateInputs classes c = true <->
  Forall (class_accepted c) classes
  /\ NoDup (ids classes)
  /\ lunch_accepted c
  /\ ~ exceeds (Revised.totalPeriodsNeeded classes)
               (Revised.totalPeriodsAvailable c).
Proof.
  rewrite validateInputs_true.
  unfold Revised.validation_errors, Revised.errors_before_capacity.
  rewrite check_capacity_silent, check_lunch_silent, check_duplicates_silent,
    validate_classes_silent.
  tauto.
Qed.

(** X1: the revised [validateInputs] accepts exactly the inputs in which
    every class has a name and a teacher that are not blank and at most 100
    code units long once trimmed, a periods-per-week that is not an integer
    outside 1..40, a duration that is not an integer outside 1..4 or above
    [periods_per_day]; the identifiers are pairwise distinct; a non-zero
    lunch period is not above [periods_per_day]; and the periods needed are
    not more than the periods available. *)
Theorem validateInputs_accepts_iff
    (classes : list ClassInput) (c : TimetableConstraints) :
  Revised.validateInputs classes c = true <->
  Forall (class_accepted c) classes
  /\ NoDup (ids classes)
  /\ lunch_accepted c
  /\ ~ exceeds (Revised.totalPeriodsNeeded classes)
               (Revised.totalPeriodsAvailable c).
Proof.
  rewrite validateInputs_true.
  unfold Revised.validation_errors, Revised.errors_before_capacity.
  rewrite check_capacity_silent, check_lunch_silent, check_duplicates_silent,
    validate_classes_silent.
  tauto.
Qed.

(** X2: each of the three form-level errors is recorded exactly on its own
    condition, whatever else is wrong: "general" when two classes share an
    identifier, "lunch" when a non-zero lunch period is above
    [periods_per_day], "capacity" when more periods are needed than
    available. *)
Theorem form_level_errors_exact
    (classes : list ClassInput) (c : TimetableConstraints) :
  (is_Some (Revised.validation_errors classes c !! "general")
   <-> ~ NoDup (ids classes))
  /\ (is_Some (Revised.validation_errors classes c !! "lunch")
      <-> ~ lunch_accepted c)
  /\ (is_Some (Revised.validation_errors classes c !! "capacity")
      <-> exceeds (Revised.totalPeriodsNeeded classes)
                  (Revised.totalPeriodsAvailable c)).
Proof.
  pose proof (loop_leaves_form_level c classes) as Hloop.
  set (m0 := fold_left (Revised.validate_class c) classes ∅) in *.
  assert (Hdup : forall k, k = "lunch" \/ k = "capacity" ->
            Revised.check_duplicates classes m0 !! k = None).
  { intros k Hk. unfold Revised.check_duplicates.
    destruct (Revised.has_duplicate_ids _);
      [rewrite lookup_insert_ne by (destruct Hk as [-> | ->]; discriminate)|];
      apply Hloop; tauto. }
  assert (Hgen : is_Some (Revised.check_duplicates classes m0 !! "general")
                 <-> ~ NoDup (ids classes)).
  { rewrite <- has_duplicate_ids_iff. unfold Revised.check_duplicates.
    fold (ids classes). destruct (Revised.has_duplicate_ids (ids classes)).
    - rewrite lookup_insert_eq. split; [discriminate | eauto].
    - rewrite Hloop by tauto. split; [intros [? [=]] | congruence]. }
  assert (Hlun : is_Some (Revised.check_lunch c (Revised.check_duplicates classes m0)
                            !! "lunch")
                 <-> ~ lunch_accepted c).
  { pose proof (check_lunch_silent c ∅) as Hs. unfold Revised.check_lunch in *.
    destruct (lunch_break_period c) as [l|] eqn:El.
    - destruct (truthy l && gt l (periods_per_day c)).
      + rewrite lookup_insert_eq. split; [|eauto].
        intros _ Hacc. apply (insert_not_empty "lunch"
          ("Lunch break period (" +:+ toString l
             +:+ ") cannot exceed periods per day ("
             +:+ toString (periods_per_day c) +:+ ")") ∅).
        apply Hs. split; [reflexivity | exact Hacc].
      + rewrite Hdup by tauto. split; [intros [? [=]]|].
        intros Hn. exfalso. apply Hn, Hs. reflexivity.
    - rewrite Hdup by tauto. split; [intros [? [=]]|].
      intros Hn. exfalso. apply Hn, Hs. reflexivity. }
  unfold Revised.validation_errors, Revised.errors_before_capacity.
  fold m0. split; [|split].
  - rewrite <- Hgen. unfold Revised.check_capacity, Revised.check_lunch.
    repeat match goal with
      | |- context [if ?b then _ else _] => destruct b
      | |- context [match ?o with Some _ => _ | None => _ end] => destruct o
      end;
      rewrite ?lookup_insert_ne by discriminate; reflexivity.
  - rewrite <- Hlun. unfold Revised.check_capacity.
    destruct (gt _ _); rewrite ?lookup_insert_ne by discriminate; reflexivity.
  - rewrite <- exceeds_test. unfold Revised.check_capacity.
    destruct (gt _ _).
    + rewrite lookup_insert_eq. split; eauto.
    + assert (Hc : Revised.check_lunch c (Revised.check_duplicates classes m0)
                     !! "capacity" = None).
      { unfold Revised.check_lunch.
        repeat match goal with
          | |- context [if ?b then _ else _] => destruct b
          | |- context [match ?o with Some _ => _ | None => _ end] => destruct o
          end;
          rewrite ?lookup_insert_ne by discriminate; apply Hdup; tauto. }
      rewrite Hc. split; [intros [? [=]] | discriminate].
Qed.

(** X3: when the identifiers are pairwise distinct, the four error
    properties of a class tell what is wrong with that class and nothing
    else: the name (teacher) property is "... is required" exactly for a
    blank name (teacher) and absent exactly for an acceptable one, the
    periods property is absent exactly when periods-per-week passes its
    range test, the duration property exactly when the duration passes its
    two tests. *)
Theorem class_errors_exact
    (classes : list ClassInput) (c : TimetableConstraints) (cls : ClassInput) :
  NoDup (ids classes) -> In cls classes ->
  (Revised.validation_errors classes c !! Revised.class_key (id cls) "name"
   = Some "Class name is required" <-> blank (name cls) = true)
  /\ (Revised.validation_errors classes c !! Revised.class_key (id cls) "name"
      = None <-> text_ok (name cls))
  /\ (Revised.validation_errors classes c !! Revised.class_key (id cls) "teacher"
      = Some "Teacher name is required" <-> blank (teacher cls) = true)
  /\ (Revised.validation_errors classes c !! Revised.class_key (id cls) "teacher"
      = None <-> text_ok (teacher cls))
  /\ (Revised.validation_errors classes c !! Revised.class_key (id cls) "periods"
      = None <-> passes_range 1 40 (periods_per_week cls))
  /\ (Revised.validation_errors classes c !! Revised.class_key (id cls) "duration"
      = None <-> passes_range 1 4 (duration cls)
                 /\ ~ exceeds (duration cls) (periods_per_day c)).
Proof.
  intros Hnd Hin.
  assert (Hown : forall f, error_field f ->
    exists m', m' !! Revised.class_key (id cls) f = None
      /\ Revised.validation_errors classes c !! Revised.class_key (id cls) f
         = Revised.validate_class c m' cls !! Revised.class_key (id cls) f).
  { intros f Hf. rewrite validation_errors_class_key.
    apply validate_classes_own; try assumption.
    intros cls' _. apply lookup_empty. }
  destruct (Hown "name" error_field_name) as (m1 & Hm1 & ->).
  destruct (Hown "teacher" error_field_teacher) as (m2 & Hm2 & ->).
  destruct (Hown "periods" error_field_periods) as (m3 & Hm3 & ->).
  destruct (Hown "duration" error_field_duration) as (m4 & Hm4 & ->).
  rewrite (validate_class_own_name c m1 cls Hm1),
    (validate_class_own_teacher c m2 cls Hm2),
    (validate_class_own_periods c m3 cls Hm3),
    (validate_class_own_duration c m4 cls Hm4).
  rewrite !text_ok_tests, !required_test, <- !passes_range_tests, <- exceeds_test.
  destruct (blank (name cls)), (gt (text_length (trim (name cls))) (Num 100)),
    (blank (teacher cls)), (gt (text_length (trim (teacher cls))) (Num 100)),
    (lt (periods_per_week cls) (Num 1) || gt (periods_per_week cls) (Num 40)),
    (gt (duration cls) (periods_per_day c)),
    (lt (duration cls) (Num 1) || gt (duration cls) (Num 4));
    repeat split; intros; try reflexivity; try discriminate; try congruence;
    repeat match goal with H : _ /\ _ |- _ => destruct H end;
    try discriminate; try congruence.
Qed.

(** Two classes under distinct identifiers; the second has a blank name. *)
Lemma class_errors_exact_witness :
  Revised.validation_errors [single_period_class; new_class "2"] initial_constraints
    !! Revised.class_key "2" "name" = Some "Class name is required"
  /\ Revised.validation_errors [single_period_class; new_class "2"] initial_constraints
       !! Revised.class_key "1" "name" = None.
Proof.
  assert (Hnd : NoDup (ids [single_period_class; new_class "2"])).
  { apply has_duplicate_ids_iff. reflexivity. }
  destruct (class_errors_exact [single_period_class; new_class "2"]
              initial_constraints (new_class "2") Hnd
              (or_intror (or_introl eq_refl))) as (Hblank & _).
  destruct (class_errors_exact [single_period_class; new_class "2"]
              initial_constraints single_period_class Hnd (or_introl eq_refl))
    as (_ & Hfine & _).
  split.
  - apply Hblank. reflexivity.
  - apply Hfine. split; [reflexivity | simpl; lia].
Defined.

Lemma trimmed_ids (classes : list ClassInput) :
  ids (Revised.trimmedClasses classes) = ids classes.
Proof. unfold ids, Revised.trimmedClasses. rewrite map_map. reflexivity. Qed.

Lemma trimmed_needed (classes : list ClassInput) :
  Revised.totalPeriodsNeeded (Revised.trimmedClasses classes)
  = Revised.totalPeriodsNeeded classes.
Proof.
  rewrite !totalPeriodsNeeded_weighted. f_equal. unfold Revised.trimmedClasses.
  induction classes as [|cls l IH]; simpl; [reflexivity | rewrite IH; reflexivity].
Qed.

(** Trimming keeps an accepted input accepted. *)
Lemma trimmed_accepted (classes : list ClassInput) (c : TimetableConstraints) :
  Revised.validateInputs classes c = true ->
  Revised.validateInputs (Revised.trimmedClasses classes) c = true.
Proof.
  rewrite !validateInputs_conditions, trimmed_ids, trimmed_needed.
  intros (Hcls & Hnd & Hlunch & Hcap). repeat split; try assumption.
  unfold Revised.trimmedClasses. apply Forall_map.
  eapply Forall_impl; [exact Hcls|].
  intros cls (Hn & Ht & Hp & Hd & He).
  repeat split; simpl; auto using text_ok_trim; apply text_ok_trim; assumption.
Qed.

(** X4: what the revised [handleGenerate] posts is the input with names and
    teachers trimmed, under the constraints as they are; every posted name
    and teacher is non-empty and unchanged by a further trim, and the
    posted body would itself be accepted by [validateInputs]. *)
Theorem posted_body_valid
    (classes posted_classes : list ClassInput)
    (c posted_constraints : TimetableConstraints) :
  Revised.handleGenerate classes c = Posted posted_classes posted_constraints ->
  posted_constraints = c
  /\ posted_classes = Revised.trimmedClasses classes
  /\ ids posted_classes = ids classes
  /\ Forall (fun p => name p <> [] /\ trim (name p) = name p
                      /\ teacher p <> [] /\ trim (teacher p) = teacher p)
            posted_classes
  /\ Revised.validateInputs posted_classes posted_constraints = true.
Proof.
  unfold Revised.handleGenerate.
  destruct (Revised.validateInputs classes c) eqn:Hacc; [|discriminate].
  simpl. intros [= <- <-]. split; [reflexivity|]. split; [reflexivity|].
  split; [apply trimmed_ids|]. split; [|apply trimmed_accepted, Hacc].
  apply validateInputs_conditions in Hacc as (Hcls & _).
  unfold Revised.trimmedClasses. apply Forall_map.
  eapply Forall_impl; [exact Hcls|]. intros cls (Hn & Ht & _). simpl.
  repeat split; auto using text_ok_not_empty, trim_idem.
Qed.

(** A class typed with spaces around its name and teacher. *)
Lemma posted_body_valid_witness :
  Revised.handleGenerate
    [mkClass "1" (utf16 "  Mathematics ") (utf16 " Mr. Smith  ") (Num 5) (Num 1) None]
    initial_constraints
  = Posted [single_period_class] initial_constraints
  /\ Revised.validateInputs [single_period_class] initial_constraints = true.
Proof.
  assert (H : Revised.handleGenerate
                [mkClass "1" (utf16 "  Mathematics ") (utf16 " Mr. Smith  ") (Num 5) (Num 1) None]
                initial_constraints
              = Posted [single_period_class] initial_constraints)
    by (vm_compute; reflexivity).
  split; [exact H|].
  apply (posted_body_valid _ _ _ _ H).
Defined.

(** ** Further invariants of the revised form *)

Section RevisedStates.

Import Revised.

(** Induction over the events: what holds initially and is kept by every
    event holds in every state of the form. *)
Lemma run_invariant (P : form -> Prop) :
  P initial -> (forall f e, P f -> P (step f e)) -> forall es, P (run es).
Proof.
  intros Hinit Hstep es. unfold run. generalize initial Hinit.
  induction es as [|e es IH]; intros f Hf; simpl; [exact Hf|].
  apply IH, Hstep, Hf.
Qed.

Lemma step_cases (P : form -> Prop) (f : form) (e : event) :
  P f ->
  (forall now, (length (classes f) < 20)%nat -> P (addClass now f)) ->
  (forall i, (1 < length (classes f))%nat ->
             P (mkForm (List.filter (fun c => negb (String.eqb (id c) i)) (classes f))
                       (constraints f)
                       (delete (class_key i "teacher")
                          (delete (class_key i "name") (validationErrors f))))) ->
  (forall i fv, P (updateClass i fv f)) ->
  (forall c, days_per_week c = days_per_week (constraints f) ->
             P (mkForm (classes f) c (validationErrors f))) ->
  P (mkForm (classes f) (constraints f)
            (validation_errors (classes f) (constraints f))) ->
  P (step f e).
Proof.
  intros Hf Hadd Hrem Hupd Hcon Hgen. destruct e; cbn [step].
  - destruct (20 <=? length (classes f))%nat eqn:E; [exact Hf|].
    apply Hadd. apply Nat.leb_gt in E. exact E.
  - destruct (1 <? length (classes f))%nat eqn:E; [|exact Hf].
    unfold removeClass. rewrite E. apply Hrem. apply Nat.ltb_lt in E. exact E.
  - apply Hupd.
  - apply Hupd.
  - apply Hupd.
  - apply Hcon. reflexivity.
  - apply Hcon. reflexivity.
  - apply Hcon. reflexivity.
  - apply Hcon. reflexivity.
  - destruct (length (classes f) =? 0)%nat; [exact Hf | exact Hgen].
Qed.

Lemma updateClass_length i fv f :
  length (classes (updateClass i fv f)) = length (classes f).
Proof. simpl. apply length_map. Qed.

Lemma run_days (es : list event) :
  days_per_week (constraints (run es))
  = [MONDAY; TUESDAY; WEDNESDAY; THURSDAY; FRIDAY].
Proof.
  apply (run_invariant (fun f => days_per_week (constraints f)
                                 = [MONDAY; TUESDAY; WEDNESDAY; THURSDAY; FRIDAY]));
    [reflexivity|].
  intros f e Hf. apply step_cases; try (intros; simpl; assumption).
  intros c Hd. simpl. rewrite Hd. exact Hf.
Qed.

(** With distinct identifiers a removal takes away one class at most. *)
Lemma filter_id_length (i : string) (l : list ClassInput) :
  NoDup (ids l) ->
  (length l <= S (length (List.filter (fun c => negb (String.eqb (id c) i)) l)))%nat.
Proof.
  induction l as [|c l IH]; simpl; [lia|].
  intros Hnd. apply NoDup_cons in Hnd as [Hc Hnd].
  destruct (String.eqb (id c) i) eqn:E; simpl.
  - apply String.eqb_eq in E. subst i.
    assert (Hall : List.filter (fun c0 => negb (String.eqb (id c0) (id c))) l = l).
    { apply List.forallb_filter_id, forallb_forall. intros c' Hin.
      apply negb_true_iff, String.eqb_neq. intros Heq. apply Hc.
      rewrite <- Heq. apply list_elem_of_In, in_map, Hin. }
    rewrite Hall. lia.
  - specialize (IH Hnd). lia.
Qed.

Lemma fresh_clock_prefix (es : list event) (e : event) :
  NoDup (1 :: clock_readings (es ++ [e])) -> NoDup (1 :: clock_readings es).
Proof.
  unfold clock_readings. rewrite omap_app, app_comm_cons.
  intros Hnd. apply NoDup_app in Hnd. tauto.
Qed.

End RevisedStates.

Section RevisedFigures.

Import Revised.

Lemma trimStart_clean (s : text) : starts_clean (trimStart s).
Proof.
  pose proof (trimStart_head s) as H. unfold starts_clean.
  destruct (trimStart s); [exact I | exact H].
Qed.

Lemma weighted_periods_bounds (l : list ClassInput) :
  Forall class_ok l ->
  Z.of_nat (length l) <= weighted_periods l <= 40 * Z.of_nat (length l).
Proof.
  induction 1 as [|cls l [Hp Hd] _ IH]; [simpl; lia|].
  cbn [weighted_periods fold_right length]. fold (weighted_periods l).
  rewrite Hd. destruct (periods_per_week cls) as [|z]; [destruct Hp|].
  simpl in Hp. unfold value_or.
  destruct (z =? 0) eqn:Hz; [lia|]. simpl (1 =? 0). cbv iota. lia.
Qed.

(** On a class as the form keeps it, the range checks of the loop record
    nothing. *)
Lemma check_periods_ok cls m : class_ok cls -> check_periods cls m = m.
Proof.
  intros [Hp _]. unfold check_periods.
  destruct (periods_per_week cls) as [|z]; [destruct Hp|]. simpl in *.
  unfold gt, lt.
  destruct (z <? 1) eqn:E1; [apply Z.ltb_lt in E1; lia|].
  destruct (40 <? z) eqn:E2; [apply Z.ltb_lt in E2; lia|]. reflexivity.
Qed.

Lemma check_duration_ok c cls m :
  class_ok cls -> in_range 4 12 (periods_per_day c) -> check_duration c cls m = m.
Proof.
  intros [_ Hd] Hp. unfold check_duration. rewrite Hd.
  destruct (periods_per_day c) as [|p]; [destruct Hp|]. simpl in *.
  unfold gt, lt. destruct (p <? 1) eqn:E; [apply Z.ltb_lt in E; lia|].
  reflexivity.
Qed.

Lemma validate_classes_no_range_error c classes m k :
  Forall class_ok classes -> in_range 4 12 (periods_per_day c) ->
  (forall i, k <> class_key i "name") ->
  (forall i, k <> class_key i "teacher") ->
  fold_left (validate_class c) classes m !! k = m !! k.
Proof.
  intros Hok Hp Hn Ht. revert m.
  induction Hok as [|cls l Hc _ IH]; intros m; simpl; [reflexivity|].
  rewrite IH. unfold validate_class.
  rewrite (check_duration_ok c cls _ Hc Hp), (check_periods_ok cls _ Hc).
  rewrite check_teacher_other, check_name_other by auto. reflexivity.
Qed.

End RevisedFigures.

(** ** States of the revised form *)

(** X5: the revised form never holds more than 20 classes. *)
Theorem revised_class_count_bounded (es : list Revised.event) :
  (length (Revised.classes (Revised.run es)) <= 20)%nat.
Proof.
  apply (run_invariant (fun f => (length (Revised.classes f) <= 20)%nat)); [simpl; lia|].
  intros f e Hf. apply step_cases; try (intros; simpl; assumption).
  - intros now Hlt. simpl. rewrite length_app. simpl. lia.
  - intros i _. simpl. pose proof (List.filter_length_le
      (fun c => negb (String.eqb (id c) i)) (Revised.classes f)). lia.
  - intros i fv. rewrite updateClass_length. exact Hf.
Qed.

(** X6: as long as every click on "add" reads a clock value that no
    earlier click has read and that is not 1, the revised form always
    holds at least one class. *)
Theorem revised_never_empty (es : list Revised.event) :
  NoDup (1 :: clock_readings es) ->
  (1 <= length (Revised.classes (Revised.run es)))%nat.
Proof.
  induction es as [|e es IH] using rev_ind; [simpl; lia|].
  intros Hnd. pose proof (fresh_clock_prefix es e Hnd) as Hpre.
  specialize (IH Hpre). destruct (run_ids_fresh_clock es Hpre) as [Hids _].
  rewrite run_snoc. apply step_cases; try (intros; simpl; assumption).
  - intros now _. simpl. rewrite length_app. simpl. lia.
  - intros i Hlen. simpl. pose proof (filter_id_length i _ Hids). lia.
  - intros i fv. rewrite updateClass_length. exact IH.
Qed.

(** Two adds at different times, then three removals, the last of which
    finds a single class and leaves it. *)
Lemma revised_never_empty_witness :
  (1 <= length (Revised.classes
                  (Revised.run [Revised.AddClass 1700000000000;
                                Revised.AddClass 1700000000250;
                                Revised.RemoveClass "1";
                                Revised.RemoveClass "1700000000000";
                                Revised.RemoveClass "1700000000250"])))%nat.
Proof.
  apply revised_never_empty.
  apply NoDup_ListNoDup. repeat constructor; simpl; intuition discriminate.
Defined.

(** X7: no name or teacher stored by the revised form starts with white
    space. *)
Theorem revised_text_starts_clean (es : list Revised.event) :
  Forall (fun cls => starts_clean (name cls) /\ starts_clean (teacher cls))
         (Revised.classes (Revised.run es)).
Proof.
  apply (run_invariant
           (fun f => Forall (fun cls => starts_clean (name cls)
                                        /\ starts_clean (teacher cls))
                            (Revised.classes f))).
  - repeat constructor.
  - intros f e Hf. apply step_cases; try (intros; simpl; assumption).
    + intros now _. simpl. apply Forall_app. split; [exact Hf|].
      repeat constructor.
    + intros i _. simpl. apply Forall_forall. intros cls Hin.
      apply list_elem_of_In, List.filter_In in Hin as [Hin _].
      rewrite Forall_forall in Hf. apply Hf, list_elem_of_In, Hin.
    + intros i fv. simpl. apply Forall_map. eapply Forall_impl; [exact Hf|].
      intros cls [Hn Ht]. destruct (String.eqb (id cls) i); [|auto].
      destruct fv; simpl; auto using trimStart_clean.
Qed.

(** X8: in every state of the revised form the periods needed are an
    integer between the number of classes and 40 times that number, and
    the periods available an integer from 15 to 60, so that the
    utilisation is never computed over zero periods. *)
Theorem revised_capacity_figures (es : list Revised.event) :
  in_range (Z.of_nat (length (Revised.classes (Revised.run es))))
           (40 * Z.of_nat (length (Revised.classes (Revised.run es))))
           (Revised.totalPeriodsNeeded (Revised.classes (Revised.run es)))
  /\ in_range 15 60
       (Revised.totalPeriodsAvailable (Revised.constraints (Revised.run es)))
  /\ gt (Revised.totalPeriodsAvailable (Revised.constraints (Revised.run es)))
        (Num 0) = true.
Proof.
  destruct (run_well_formed es) as [Hp Hc].
  assert (Havail : in_range 15 60
            (Revised.totalPeriodsAvailable (Revised.constraints (Revised.run es)))).
  { destruct (periods_per_day (Revised.constraints (Revised.run es)))
      as [|p] eqn:Ep; [destruct Hp|].
    rewrite (totalPeriodsAvailable_Num _ p Ep), run_days. simpl in *.
    destruct (truthy_opt _); lia. }
  split; [|split; [exact Havail|]].
  - rewrite totalPeriodsNeeded_weighted. simpl.
    apply weighted_periods_bounds, Hc.
  - destruct (Revised.totalPeriodsAvailable _) as [|a]; [destruct Havail|].
    simpl in Havail. unfold gt, lt. apply Z.ltb_lt. lia.
Qed.

(** X9: in every state of the revised form, validation records no
    periods error and no duration error, for any class. *)
Theorem revised_no_range_errors (es : list Revised.event) (i : string) :
  Revised.validation_errors (Revised.classes (Revised.run es))
    (Revised.constraints (Revised.run es)) !! Revised.class_key i "periods" = None
  /\ Revised.validation_errors (Revised.classes (Revised.run es))
       (Revised.constraints (Revised.run es)) !! Revised.class_key i "duration"
     = None.
Proof.
  destruct (run_well_formed es) as [Hp Hc].
  rewrite !validation_errors_class_key.
  rewrite !validate_classes_no_range_error; try assumption;
    try (split; apply lookup_empty);
    intros j [_ [=]]%class_key_inj;
    auto using error_field_name, error_field_teacher, error_field_periods,
               error_field_duration.
Qed.

Section StoredErrors.

Import Revised.

Ltac nonempty_cases :=
  repeat match goal with
    | |- map_Forall _ (if ?b then _ else _) => destruct b
    | |- map_Forall _ (match ?o with Some _ => _ | None => _ end) => destruct o
    | |- map_Forall _ (<[_ := _]> _) =>
        apply map_Forall_insert_2; [discriminate|]
    end; try assumption.

Lemma validate_class_messages c m cls :
  map_Forall (fun _ v => v <> "") m ->
  map_Forall (fun _ v => v <> "") (validate_class c m cls).
Proof.
  intros Hm.
  unfold validate_class, check_duration, check_periods, check_teacher, check_name.
  cbv zeta. nonempty_cases.
Qed.

(** No message that [validateInputs] records is empty. *)
Lemma validation_errors_messages classes c :
  map_Forall (fun _ v => v <> "") (validation_errors classes c).
Proof.
  assert (Hloop : forall m, map_Forall (fun _ v => v <> "") m ->
            map_Forall (fun _ v => v <> "")
                       (fold_left (validate_class c) classes m)).
  { induction classes as [|cls l IH]; intros m Hm; simpl; [exact Hm|].
    apply IH, validate_class_messages, Hm. }
  specialize (Hloop ∅ (map_Forall_empty _)).
  unfold validation_errors, errors_before_capacity, check_capacity, check_lunch,
    check_duplicates, capacity_message.
  nonempty_cases.
Qed.

Lemma run_messages (es : list event) :
  map_Forall (fun _ v => v <> "") (validationErrors (run es)).
Proof.
  apply (run_invariant
           (fun f => map_Forall (fun _ v => v <> "") (validationErrors f)));
    [apply map_Forall_empty|].
  intros f e Hf. apply step_cases; try (intros; simpl; assumption).
  - intros i _. simpl. apply map_Forall_delete, map_Forall_delete, Hf.
  - intros i fv. simpl.
    destruct (validationErrors f !! class_key i (field_name fv)) as [v|];
      [|exact Hf].
    destruct (not_str v); [exact Hf | apply map_Forall_delete, Hf].
  - simpl. apply validation_errors_messages.
Qed.

Lemma updateClass_clears (f : form) (i : string) (fv : field_value) :
  map_Forall (fun _ v => v <> "") (validationErrors f) ->
  validationErrors (updateClass i fv f)
  = delete (class_key i (field_name fv)) (validationErrors f).
Proof.
  intros Hf. simpl.
  destruct (validationErrors f !! class_key i (field_name fv)) as [v|] eqn:E.
  - destruct v; [|reflexivity]. exfalso. apply (Hf _ _ E). reflexivity.
  - symmetry. apply delete_id, E.
Qed.

End StoredErrors.

(** X10: in every state of the revised form, editing the name (teacher) of
    a class removes the name (teacher) error stored for that class and
    leaves every other stored error as it is. *)
Theorem revised_edit_clears_error
    (es : list Revised.event) (i : string) (value : text) :
  Revised.validationErrors (Revised.step (Revised.run es) (Revised.ChangeName i value))
  = delete (Revised.class_key i "name") (Revised.validationErrors (Revised.run es))
  /\ Revised.validationErrors
       (Revised.step (Revised.run es) (Revised.ChangeTeacher i value))
     = delete (Revised.class_key i "teacher")
              (Revised.validationErrors (Revised.run es)).
Proof.
  split; cbn [Revised.step];
    rewrite updateClass_clears by apply run_messages; reflexivity.
Qed.

(** X11: in either form, removing the class just added gives back the
    class list as it was, provided the new identifier was not in use (and,
    in the revised form, whose [removeClass] leaves a single class alone,
    the list was not empty). *)
Theorem add_then_remove :
  (forall (f : Original.form),
      ~ In (pretty (Z.of_nat (length (Original.classes f)) + 1))
           (ids (Original.classes f)) ->
      Original.classes
        (Original.removeClass
           (pretty (Z.of_nat (length (Original.classes f)) + 1))
           (Original.addClass f))
      = Original.classes f)
  /\ (forall (f : Revised.form) (now : Z),
        ~ In (pretty now) (ids (Revised.classes f)) ->
        Revised.classes f <> [] ->
        Revised.classes (Revised.removeClass (pretty now) (Revised.addClass now f))
        = Revised.classes f).
Proof.
  assert (Hfilter : forall (l : list ClassInput) (i : string),
    ~ In i (ids l) ->
    List.filter (fun c => negb (String.eqb (id c) i)) (l ++ [new_class i]) = l).
  { intros l i Hi. rewrite List.filter_app. simpl. rewrite String.eqb_refl. simpl.
    rewrite app_nil_r. apply List.forallb_filter_id, forallb_forall.
    intros c Hin. apply negb_true_iff, String.eqb_neq. intros <-.
    apply Hi, in_map, Hin. }
  split.
  - intros f Hfresh. simpl. apply Hfilter, Hfresh.
  - intros f now Hfresh Hne. unfold Revised.removeClass.
    assert (Hlen : (1 <? length (Revised.classes (Revised.addClass now f)))%nat = true).
    { apply Nat.ltb_lt. simpl. rewrite length_app. simpl.
      destruct (Revised.classes f); [congruence | simpl; lia]. }
    rewrite Hlen. simpl. apply Hfilter, Hfresh.
Qed.

(** The initial state of each form; the revised one adds at clock reading
    1700000000000. *)
Lemma add_then_remove_witness :
  Original.classes (Original.removeClass "2" (Original.addClass Original.initial))
  = initial_classes
  /\ Revised.classes
       (Revised.removeClass "1700000000000"
          (Revised.addClass 1700000000000 Revised.initial))
     = initial_classes.
Proof.
  split.
  - apply (proj1 add_then_remove Original.initial).
    simpl. intros [H | []]. discriminate.
  - apply (proj2 add_then_remove Revised.initial 1700000000000).
    + simpl. intros [H | []]. discriminate.
    + discriminate.
Defined.

(** X12: the original [handleGenerate] posts exactly the inputs in which no
    name and no teacher is the empty string, and posts the classes as they
    are. *)
Theorem original_posts_iff
    (classes : list ClassInput) (c : TimetableConstraints) :
  (Original.handleGenerate classes c = Posted classes c
   <-> Forall (fun cls => name cls <> [] /\ teacher cls <> []) classes)
  /\ (posted (Original.handleGenerate classes c) = true
      <-> Original.handleGenerate classes c = Posted classes c).
Proof.
  assert (Hempty : Original.emptyClasses classes = []
                   <-> Forall (fun cls => name cls <> [] /\ teacher cls <> []) classes).
  { unfold Original.emptyClasses. induction classes as [|cls l IH]; simpl.
    - split; [constructor | reflexivity].
    - rewrite Forall_cons, <- IH.
      destruct (name cls), (teacher cls); simpl;
        split; try discriminate; try tauto;
        try (intros [[? ?] _]; congruence);
        intros H; (split; [split; discriminate | exact H]). }
  unfold Original.handleGenerate. rewrite <- Hempty.
  destruct (Original.emptyClasses classes); simpl;
    repeat split; intros; try reflexivity; try discriminate.
Qed.

(** ** The end of the request *)

(** X13: when the request of the revised form fails, by a reply without
    success or by a thrown error of any shape, the error the form stores is
    truthy: it is a non-empty string, except that a truthy
    [response.data.message] or [response.data.detail] of a thrown error is
    stored as it is, whatever it is. A schedule is handed on only for a
    successful reply, with the constraints that were posted. In the
    original form a thrown error stores a truthy error as well, its
    [response.data.detail] as it is or else a non-empty string. *)
Theorem failure_stores_truthy_error (c : TimetableConstraints) (done : completion) :
  match RevisedReply.after_request c done with
  | ErrorSet error =>
      truthy_value error = true
      /\ ((exists s, error = Str s /\ s <> "")
          \/ (exists err, done = Threw err
                          /\ (error = err_data_message err
                              \/ error = err_data_detail err)))
  | ScheduleGenerated s c' =>
      c' = c /\ exists r, done = Replied r /\ success r = true /\ s = schedule r
  end
  /\ match done with
     | Threw err =>
         exists error, OriginalReply.after_request c done = ErrorSet error
                       /\ truthy_value error = true
                       /\ (error = err_data_detail err
                           \/ exists s, error = Str s /\ s <> "")
     | Replied _ => True
     end.
Proof.
  split.
  - destruct done as [r | err]; simpl.
    + destruct (success r) eqn:Hs; [eauto 6|].
      destruct (message r) eqn:Hm; simpl;
        (split; [reflexivity | left; eexists; split; [reflexivity | discriminate]]).
    + unfold RevisedReply.error_of.
      repeat match goal with
        | |- context [if ?b then _ else _] => destruct b eqn:?
        end;
        (split; [first [reflexivity | assumption]|]);
        first [ left; eexists; split; [reflexivity | discriminate]
              | right; exists err; split; [reflexivity | tauto] ].
  - destruct done as [r | err]; [exact I|]. simpl.
    destruct (truthy_value (err_data_detail err)) eqn:E.
    + eauto.
    + eexists. split; [reflexivity|]. split; [reflexivity|].
      right. eexists. split; [reflexivity | discriminate].
Qed.

(** ** The timetable grid *)

Section Grid.

Import TimetableView.

Lemma strict_eq_true (x y : number) :
  strict_eq x y = true <-> exists k, x = Num k /\ y = Num k.
Proof.
  destruct x as [|a], y as [|b]; simpl;
    try (split; [discriminate | intros (k & ? & ?); discriminate]).
  rewrite Z.eqb_eq. split; [intros ->; eauto | intros (k & [= ->] & [= ->]); reflexivity].
Qed.

Lemma getSlot_Some schedule d q s :
  getSlot schedule d q = Some s ->
  In s schedule /\ TimeSlot.day s = d /\ TimeSlot.period s = q
  /\ exists k, q = Num k.
Proof.
  unfold getSlot. intros H. apply List.find_some in H as [Hin Htest].
  apply andb_true_iff in Htest as [Hd Hp].
  apply bool_decide_eq_true in Hd. apply strict_eq_true in Hp as (k & Hk & ->).
  eauto 6.
Qed.

(** [getSlot] at the place of an entry finds that entry or an earlier one
    at the same place. *)
Lemma getSlot_own schedule s k :
  In s schedule -> TimeSlot.period s = Num k ->
  exists s', getSlot schedule (TimeSlot.day s) (TimeSlot.period s) = Some s'
             /\ place s' = place s.
Proof.
  intros Hin Hk. unfold getSlot.
  destruct (List.find _ schedule) as [s'|] eqn:E.
  - exists s'. split; [reflexivity|].
    apply List.find_some in E as [_ Htest].
    apply andb_true_iff in Htest as [Hd Hp].
    apply bool_decide_eq_true in Hd. apply strict_eq_true in Hp as (j & Hj & Hj').
    unfold place. congruence.
  - exfalso. pose proof (List.find_none _ _ E s Hin) as Hnone. simpl in Hnone.
    rewrite bool_decide_eq_true_2 in Hnone by reflexivity.
    rewrite Hk in Hnone. simpl in Hnone. rewrite Z.eqb_refl in Hnone.
    discriminate.
Qed.

Lemma In_periods (p : Z) (q : number) :
  In q (periods (Num p)) <-> exists k, q = Num k /\ 1 <= k <= p.
Proof.
  unfold periods. rewrite in_map_iff. split.
  - intros (i & <- & Hi). apply in_seq in Hi. exists (Z.of_nat i + 1).
    split; [reflexivity | lia].
  - intros (k & -> & Hk). exists (Z.to_nat (k - 1)). split; [f_equal; lia|].
    apply in_seq. lia.
Qed.

Lemma periods_length (p : Z) : 0 <= p -> length (periods (Num p)) = Z.to_nat p.
Proof. intros _. unfold periods. rewrite length_map, length_seq. reflexivity. Qed.

Lemma In_class_cells schedule c s :
  In s (class_cells schedule c) <->
  exists q d, In q (periods (periods_per_day c)) /\ In d (days_per_week c)
              /\ getSlot schedule d q = Some s.
Proof.
  unfold class_cells, rows. rewrite in_concat. split.
  - intros (l & Hl & Hs). apply in_map_iff in Hl as ([q cells] & <- & Hrow).
    apply in_map_iff in Hrow as (q' & [= <- <-] & Hq).
    simpl in Hs. apply list_elem_of_In, list_elem_of_omap in Hs as (cell & Hcell & Hsome).
    apply list_elem_of_In, in_map_iff in Hcell as (d & <- & Hd).
    exists q', d. split; [exact Hq|]. split; [exact Hd|].
    unfold cell_of in Hsome. destruct (getSlot schedule d q') as [s'|].
    + congruence.
    + destruct (lunch_break_period c) as [l|]; [|discriminate].
      destruct (truthy l && strict_eq q' l); discriminate.
  - intros (q & d & Hq & Hd & Hget).
    exists (omap (fun c0 => match c0 with ClassCell s0 => Some s0 | _ => None end)
                 (map (cell_of schedule c q) (days_per_week c))).
    split.
    + apply in_map_iff. exists (q, map (cell_of schedule c q) (days_per_week c)).
      split; [reflexivity|]. apply in_map_iff. exists q. split; [reflexivity | exact Hq].
    + apply list_elem_of_In, list_elem_of_omap. exists (ClassCell s).
      split; [|reflexivity]. apply list_elem_of_In, in_map_iff. exists d.
      split; [|exact Hd]. unfold cell_of. rewrite Hget. reflexivity.
Qed.

End Grid.

(** X14: an entry of the schedule appears in the grid exactly when its day
    is one of the columns, its period is an integer from 1 to
    [periods_per_day], and it is the first entry of the schedule on that
    day and period; entries elsewhere, and later entries at a place already
    taken, are not shown. *)
Theorem grid_shows_first_entries
    (schedule : list TimeSlot.t) (c : TimetableConstraints) (p : Z)
    (s : TimeSlot.t) :
  periods_per_day c = Num p ->
  (In s (TimetableView.class_cells schedule c) <->
   In (TimeSlot.day s) (days_per_week c)
   /\ (exists k, TimeSlot.period s = Num k /\ 1 <= k <= p)
   /\ TimetableView.getSlot schedule (TimeSlot.day s) (TimeSlot.period s) = Some s).
Proof.
  intros Hp. rewrite In_class_cells, Hp. split.
  - intros (q & d & Hq & Hd & Hget).
    destruct (getSlot_Some _ _ _ _ Hget) as (_ & <- & <- & _).
    apply In_periods in Hq. auto.
  - intros (Hd & Hk & Hget).
    exists (TimeSlot.period s), (TimeSlot.day s).
    split; [apply In_periods, Hk | auto].
Qed.

Lemma class_cells_members
    (schedule : list TimeSlot.t) (c : TimetableConstraints) (p : Z) :
  periods_per_day c = Num p ->
  NoDup (map place schedule) ->
  Forall (fun s => In (TimeSlot.day s) (days_per_week c)
                   /\ exists k, TimeSlot.period s = Num k /\ 1 <= k <= p)
         schedule ->
  forall s, In s (TimetableView.class_cells schedule c) <-> In s schedule.
Proof.
  intros Hp Hnd Hall s. rewrite In_class_cells. split.
  - intros (q & d & _ & _ & Hget). apply (getSlot_Some _ _ _ _ Hget).
  - intros Hin. rewrite Forall_forall in Hall.
    destruct (Hall s (proj2 (list_elem_of_In _ _) Hin)) as (Hd & k & Hk & Hrange).
    destruct (getSlot_own schedule s k Hin Hk) as (s' & Hget & Hplace).
    assert (Hs' : In s' schedule) by apply (getSlot_Some _ _ _ _ Hget).
    assert (s' = s) as ->.
    { clear -Hnd Hin Hs' Hplace. induction schedule as [|e l IH]; [destruct Hin|].
      simpl in Hnd. apply NoDup_cons in Hnd as [He Hl].
      destruct Hin as [-> | Hin], Hs' as [<- | Hs']; auto.
      - exfalso. apply He. rewrite <- Hplace. apply list_elem_of_In, in_map, Hs'.
      - exfalso. apply He. rewrite Hplace. apply list_elem_of_In, in_map, Hin. }
    exists (TimeSlot.period s), (TimeSlot.day s).
    rewrite Hp. split; [apply In_periods; eauto | auto].
Qed.

Lemma NoDup_concat_map {A B : Type} (f : A -> list B) (l : list A) :
  NoDup l ->
  (forall x, In x l -> NoDup (f x)) ->
  (forall x1 x2 y, In x1 l -> In x2 l -> In y (f x1) -> In y (f x2) -> x1 = x2) ->
  NoDup (concat (map f l)).
Proof.
  induction l as [|x l IH]; simpl; intros Hnd Hrow Hsep; [constructor|].
  apply NoDup_cons in Hnd as [Hx Hl]. apply NoDup_app. split; [auto|]. split.
  - intros y Hy Hy'. apply list_elem_of_In, in_concat in Hy' as (r & Hr & Hyr).
    apply in_map_iff in Hr as (x2 & <- & Hx2).
    apply Hx, list_elem_of_In.
    rewrite (Hsep x x2 y); auto. apply list_elem_of_In, Hy.
  - apply IH; auto. intros x1 x2 y H1 H2. apply Hsep; auto.
Qed.

Lemma row_cells (schedule : list TimeSlot.t) (c : TimetableConstraints)
    (q : number) (days : list Day) (s : TimeSlot.t) :
  In s (omap (fun c0 => match c0 with
                        | TimetableView.ClassCell s0 => Some s0
                        | _ => None end)
             (map (TimetableView.cell_of schedule c q) days)) ->
  TimeSlot.period s = q /\ In (TimeSlot.day s) days.
Proof.
  intros (cell & Hcell & Hsome)%list_elem_of_In%list_elem_of_omap.
  apply list_elem_of_In, in_map_iff in Hcell as (d0 & <- & Hd0).
  unfold TimetableView.cell_of in Hsome.
  destruct (TimetableView.getSlot schedule d0 q) as [s'|] eqn:Hget.
  - injection Hsome as ->.
    destruct (getSlot_Some _ _ _ _ Hget) as (_ & <- & <- & _). auto.
  - destruct (lunch_break_period c) as [l|]; [|discriminate].
    destruct (truthy l && strict_eq q l); discriminate.
Qed.

Lemma row_cells_NoDup (schedule : list TimeSlot.t) (c : TimetableConstraints)
    (q : number) (days : list Day) :
  NoDup days ->
  NoDup (omap (fun c0 => match c0 with
                         | TimetableView.ClassCell s0 => Some s0
                         | _ => None end)
              (map (TimetableView.cell_of schedule c q) days)).
Proof.
  induction days as [|d days IH]; intros Hnd; [constructor|].
  apply NoDup_cons in Hnd as [Hd Hnd]. specialize (IH Hnd). simpl.
  destruct (TimetableView.cell_of schedule c q d) as [s| |] eqn:Hcell;
    try exact IH.
  apply NoDup_cons. split; [|exact IH].
  intros Hin%list_elem_of_In%row_cells. apply Hd, list_elem_of_In.
  unfold TimetableView.cell_of in Hcell.
  destruct (TimetableView.getSlot schedule d q) as [s'|] eqn:Hget.
  - injection Hcell as ->.
    destruct (getSlot_Some _ _ _ _ Hget) as (_ & <- & _). tauto.
  - destruct (lunch_break_period c) as [l|]; [|discriminate].
    destruct (truthy l && strict_eq q l); discriminate.
Qed.

Lemma periods_NoDup (n : number) : NoDup (TimetableView.periods n).
Proof.
  destruct n as [|z]; [constructor|]. unfold TimetableView.periods.
  apply NoDup_fmap_2_strong; [|apply NoDup_seq].
  intros i j _ _ [= H]. lia.
Qed.

Lemma class_cells_NoDup (schedule : list TimeSlot.t) (c : TimetableConstraints) :
  NoDup (days_per_week c) -> NoDup (TimetableView.class_cells schedule c).
Proof.
  intros Hdays. unfold TimetableView.class_cells, TimetableView.rows.
  rewrite map_map. simpl. apply NoDup_concat_map.
  - apply periods_NoDup.
  - intros q _. apply row_cells_NoDup, Hdays.
  - intros q1 q2 s _ _ [H1 _]%row_cells [H2 _]%row_cells. congruence.
Qed.

(** X15: when the columns are distinct days, no two entries of the schedule
    share a day and period, and every entry lies on a column day and on a
    period from 1 to [periods_per_day], the class cells of the grid are the
    entries of the schedule, each shown once. *)
Theorem grid_shows_whole_schedule
    (schedule : list TimeSlot.t) (c : TimetableConstraints) (p : Z) :
  periods_per_day c = Num p ->
  NoDup (days_per_week c) ->
  NoDup (map place schedule) ->
  Forall (fun s => In (TimeSlot.day s) (days_per_week c)
                   /\ exists k, TimeSlot.period s = Num k /\ 1 <= k <= p)
         schedule ->
  TimetableView.class_cells schedule c ≡ₚ schedule
  /\ length (TimetableView.class_cells schedule c) = length schedule.
Proof.
  intros Hp Hdays Hnd Hall.
  assert (Hperm : TimetableView.class_cells schedule c ≡ₚ schedule).
  { apply NoDup_Permutation.
    - apply class_cells_NoDup, Hdays.
    - apply (NoDup_fmap_1 place), Hnd.
    - intros s. rewrite !list_elem_of_In.
      apply (class_cells_members schedule c p Hp Hnd Hall). }
  split; [exact Hperm | apply Permutation_length, Hperm].
Qed.

(** The first Monday entry is shown; the later entry on the same place is
    in the schedule and is not shown. *)
Lemma grid_shows_first_entries_witness :
  In (TimeSlot.mk MONDAY (Num 1) "1" "Mathematics" "Mr. Smith" None)
     (TimetableView.class_cells clashing_schedule initial_constraints)
  /\ In (TimeSlot.mk MONDAY (Num 1) "3" "History" "Mr. Brown" None)
        clashing_schedule
  /\ ~ In (TimeSlot.mk MONDAY (Num 1) "3" "History" "Mr. Brown" None)
          (TimetableView.class_cells clashing_schedule initial_constraints).
Proof.
  split; [|split].
  - apply (grid_shows_first_entries clashing_schedule initial_constraints 8 _ eq_refl).
    split; [simpl; tauto|]. split; [exists 1; split; [reflexivity | lia]|].
    reflexivity.
  - simpl. tauto.
  - intros H.
    apply (grid_shows_first_entries clashing_schedule initial_constraints 8 _ eq_refl)
      in H as (_ & _ & H).
    discriminate H.
Defined.

(** The two sample entries under the initial constraints. *)
Lemma grid_shows_whole_schedule_witness :
  TimetableView.class_cells sample_schedule initial_constraints ≡ₚ sample_schedule
  /\ length (TimetableView.class_cells sample_schedule initial_constraints) = 2%nat.
Proof.
  apply (grid_shows_whole_schedule sample_schedule initial_constraints 8 eq_refl).
  - apply NoDup_ListNoDup. repeat constructor; simpl; intuition discriminate.
  - apply NoDup_ListNoDup. repeat constructor; simpl; intuition discriminate.
  - constructor; [|constructor; [|constructor]].
    + split; [simpl; tauto | exists 1; split; [reflexivity | lia]].
    + split; [simpl; tauto | exists 3; split; [reflexivity | lia]].
Defined.

(** ** The application shell *)

Section Shell.

Lemma generate_cases (P : App.state * value -> Prop)
    (f : Revised.form) (done : completion) (a : App.state) :
  (Revised.validateInputs (Revised.classes f) (Revised.constraints f) = false ->
   P (a, Str "Please fix the validation errors above")) ->
  (forall r, Revised.validateInputs (Revised.classes f) (Revised.constraints f) = true ->
             done = Replied r -> success r = true ->
             P (App.mkState App.timetable
                  (Revised.trimmedClasses (Revised.classes f))
                  (schedule r) (Revised.constraints f), Null)) ->
  (forall error, Revised.validateInputs (Revised.classes f) (Revised.constraints f) = true ->
                 RevisedReply.after_request (Revised.constraints f) done = ErrorSet error ->
                 P (App.mkState (App.currentView a)
                      (Revised.trimmedClasses (Revised.classes f))
                      (App.schedule a) (Revised.constraints f), error)) ->
  match App.generate f done a with
  | Some after => P after
  | None => Revised.classes f = []
  end.
Proof.
  intros Hrej Hok Herr. unfold App.generate, Revised.handleGenerate.
  destruct (length (Revised.classes f) =? 0)%nat eqn:Hlen.
  { apply Nat.eqb_eq in Hlen. destruct (Revised.classes f); [reflexivity | discriminate]. }
  destruct (Revised.validateInputs _ _) eqn:Hacc; simpl; [|apply Hrej; reflexivity].
  destruct (RevisedReply.after_request (Revised.constraints f) done)
    as [sch c' | error] eqn:Hdone.
  - destruct done as [r | err]; simpl in Hdone; [|discriminate].
    destruct (success r) eqn:Hs; [|discriminate].
    injection Hdone as <- <-. apply (Hok r); auto.
  - apply Herr; auto.
Qed.

End Shell.

(** X16: in the shell, whenever the landing page is shown no classes and
    no schedule are kept, and whenever the timetable is shown the classes
    and constraints it is rendered from are a pair that the revised
    [validateInputs] accepts. *)
Theorem shell_states (es : list App.event) :
  (App.currentView (App.run es) = App.landing ->
   App.classes (App.run es) = [] /\ App.schedule (App.run es) = [])
  /\ (App.currentView (App.run es) = App.timetable ->
      Revised.validateInputs (App.classes (App.run es))
                             (App.constraints (App.run es)) = true).
Proof.
  unfold App.run.
  assert (Hinit : (App.currentView App.initial = App.landing ->
                   App.classes App.initial = [] /\ App.schedule App.initial = [])
                  /\ (App.currentView App.initial = App.timetable ->
                      Revised.validateInputs (App.classes App.initial)
                        (App.constraints App.initial) = true))
    by (split; [auto | discriminate]).
  revert Hinit. generalize App.initial.
  induction es as [|e es IH]; intros a Ha; simpl; [exact Ha|].
  apply IH. destruct Ha as [Hl Ht]. unfold App.step.
  destruct (App.currentView a) eqn:Hv, e; cbn [App.handleStartManual
    App.handleReset App.handleBackToForm App.currentView App.classes
    App.schedule App.constraints]; rewrite ?Hv;
    try (split; assumption);
    try (split; discriminate);
    try (split; [intros _; split; reflexivity | discriminate]).
  pose proof (generate_cases
           (fun res => (App.currentView (fst res) = App.landing ->
                        App.classes (fst res) = [] /\ App.schedule (fst res) = [])
                       /\ (App.currentView (fst res) = App.timetable ->
                           Revised.validateInputs (App.classes (fst res))
                             (App.constraints (fst res)) = true))
           f done a) as Hgen.
  destruct (App.generate f done a) as [after|].
  - apply Hgen.
    + intros _. simpl. rewrite Hv. split; discriminate.
    + intros r Hacc _ _. simpl. split; [discriminate|]. intros _.
      apply trimmed_accepted, Hacc.
    + intros error _ _. simpl. rewrite Hv. split; discriminate.
  - rewrite Hv. split; assumption.
Qed.

(** X17: when the revised form, in any of its states that holds at least
    one class, passes validation and the reply reports success, the shell
    shows the timetable with the schedule of the reply, and the table has
    one row for each period of the form, between 4 and 12 rows numbered
    from 1, each of five cells. *)
Theorem table_after_generation
    (es : list Revised.event) (r : TimetableResponse) (a : App.state) :
  Revised.classes (Revised.run es) <> [] ->
  Revised.validateInputs (Revised.classes (Revised.run es))
                         (Revised.constraints (Revised.run es)) = true ->
  success r = true ->
  exists after,
    App.generate (Revised.run es) (Replied r) a = Some (after, Null)
    /\ App.currentView after = App.timetable
    /\ App.schedule after = schedule r
    /\ exists p,
         4 <= p <= 12
         /\ periods_per_day (Revised.constraints (Revised.run es)) = Num p
         /\ map fst (App.table after)
            = map (fun k => Num (Z.of_nat k)) (seq 1 (Z.to_nat p))
         /\ Forall (fun row => length (snd row) = 5%nat) (App.table after).
Proof.
  intros Hne Hacc Hs.
  exists (App.mkState App.timetable
            (Revised.trimmedClasses (Revised.classes (Revised.run es)))
            (schedule r) (Revised.constraints (Revised.run es))).
  split.
  { unfold App.generate.
    assert (Hlen : (length (Revised.classes (Revised.run es)) =? 0)%nat = false)
      by (apply Nat.eqb_neq; intros H0; apply Hne, nil_length_inv, H0).
    rewrite Hlen, (handleGenerate_posts _ _ Hacc). simpl.
    rewrite Hs. reflexivity. }
  simpl. split; [reflexivity|]. split; [reflexivity|].
  destruct (run_well_formed es) as [Hp _].
  destruct (periods_per_day (Revised.constraints (Revised.run es))) as [|p] eqn:Ep;
    [destruct Hp|].
  exists p. split; [exact Hp|]. split; [reflexivity|].
  unfold App.table, TimetableView.rows. simpl. rewrite Ep, run_days. split.
  - rewrite map_map. simpl. unfold TimetableView.periods.
    rewrite <- seq_shift, !map_map. apply map_ext. intros k. f_equal. lia.
  - apply Forall_map, Forall_forall. intros q _. reflexivity.
Qed.

(** The initial class given a name and a teacher, and a successful reply
    with the two sample entries: a table of 8 rows. *)
Lemma table_after_generation_witness :
  exists after,
    App.generate
      (Revised.run [Revised.ChangeName "1" (utf16 "Mathematics");
                    Revised.ChangeTeacher "1" (utf16 "Mr. Smith")])
      (Replied (mkResponse sample_schedule true "Timetable generated"))
      (App.handleStartManual App.initial)
    = Some (after, Null)
    /\ App.currentView after = App.timetable
    /\ length (App.table after) = 8%nat.
Proof.
  destruct (table_after_generation
              [Revised.ChangeName "1" (utf16 "Mathematics");
               Revised.ChangeTeacher "1" (utf16 "Mr. Smith")]
              (mkResponse sample_schedule true "Timetable generated")
              (App.handleStartManual App.initial))
    as (after & Hgen & Hview & _ & p & _ & Hp & Hrows & _).
  - discriminate.
  - vm_compute. reflexivity.
  - reflexivity.
  - exists after. split; [exact Hgen|]. split; [exact Hview|].
    rewrite <- (length_map fst), Hrows, length_map, length_seq.
    injection Hp as <-. reflexivity.
Defined.

(** ** Order of the classes, and identifiers of the original form *)

Section Order.

Lemma weighted_periods_perm (l l' : list ClassInput) :
  l ≡ₚ l' -> weighted_periods l = weighted_periods l'.
Proof.
  induction 1 as [|x l l' _ IH|x y l|l1 l2 l3 _ IH1 _ IH2]; simpl.
  - reflexivity.
  - fold (weighted_periods l) (weighted_periods l'). lia.
  - fold (weighted_periods l). lia.
  - congruence.
Qed.

Lemma original_updateClass_ids i fv f :
  ids (Original.classes (Original.updateClass i fv f)) = ids (Original.classes f).
Proof.
  unfold ids. simpl. rewrite map_map. apply map_ext. intros c.
  destruct (String.eqb (id c) i); [destruct fv|]; reflexivity.
Qed.

End Order.

(** X18: whether the revised [validateInputs] accepts does not depend on
    the order of the classes. *)
Theorem validateInputs_order_independent
    (classes classes' : list ClassInput) (c : TimetableConstraints) :
  classes ≡ₚ classes' ->
  Revised.validateInputs classes c = Revised.validateInputs classes' c.
Proof.
  assert (Hone : forall l l', l ≡ₚ l' ->
            Revised.validateInputs l c = true -> Revised.validateInputs l' c = true).
  { intros l l' Hperm. rewrite !validateInputs_conditions.
    rewrite !totalPeriodsNeeded_weighted, (weighted_periods_perm l l' Hperm).
    intros (Hcls & Hnd & Hlunch & Hcap). repeat split; try assumption.
    - rewrite <- Hperm. exact Hcls.
    - unfold ids in *. rewrite <- Hperm. exact Hnd. }
  intros Hperm.
  destruct (Revised.validateInputs classes c) eqn:H1,
           (Revised.validateInputs classes' c) eqn:H2; try reflexivity.
  - rewrite (Hone _ _ Hperm H1) in H2. discriminate.
  - symmetry in Hperm. rewrite (Hone _ _ Hperm H2) in H1. discriminate.
Qed.

(** Two accepted classes, in both orders. *)
Lemma validateInputs_order_independent_witness :
  Revised.validateInputs
    [single_period_class; mkClass "2" (utf16 "Physics") (utf16 "Ms. Jones") (Num 4) (Num 1) None]
    initial_constraints
  = Revised.validateInputs
      [mkClass "2" (utf16 "Physics") (utf16 "Ms. Jones") (Num 4) (Num 1) None; single_period_class]
      initial_constraints.
Proof.
  apply validateInputs_order_independent. apply perm_swap.
Defined.

(** X19: in the original form, as long as no class has been removed, the
    identifiers are the numbers from 1 to the number of classes, in order,
    and so pairwise distinct. *)
Theorem original_ids_without_removal (es : list Original.event) :
  (forall i, ~ In (Original.RemoveClass i) es) ->
  ids (Original.classes (Original.run es))
  = map (fun k => pretty (Z.of_nat k))
        (seq 1 (length (Original.classes (Original.run es))))
  /\ NoDup (ids (Original.classes (Original.run es))).
Proof.
  intros Hno.
  assert (Hids : ids (Original.classes (Original.run es))
                 = map (fun k => pretty (Z.of_nat k))
                       (seq 1 (length (Original.classes (Original.run es))))).
  { induction es as [|e es IH] using rev_ind; [reflexivity|].
    assert (Hpre : forall i, ~ In (Original.RemoveClass i) es)
      by (intros i Hi; apply (Hno i), in_or_app; left; exact Hi).
    specialize (IH Hpre). unfold Original.run in *. rewrite fold_left_app. simpl.
    set (f := fold_left Original.step es Original.initial) in *.
    destruct e; cbn [Original.step]; try exact IH;
      try (rewrite original_updateClass_ids; simpl;
           rewrite length_map; exact IH).
    - unfold Original.addClass. cbn [Original.classes]. unfold ids in *.
      rewrite map_app, length_app, IH. simpl length. rewrite Nat.add_1_r, seq_S, map_app.
      simpl. do 3 f_equal. lia.
    - exfalso. apply (Hno i), in_or_app. right. left. reflexivity. }
  split; [exact Hids|]. rewrite Hids.
  apply NoDup_fmap_2_strong; [|apply NoDup_seq].
  intros x y _ _ H. apply (inj pretty) in H. lia.
Qed.

(** Three adds and a change of name. *)
Lemma original_ids_without_removal_witness :
  ids (Original.classes
         (Original.run [Original.AddClass; Original.AddClass;
                        Original.ChangeName "2" (utf16 "Physics"); Original.AddClass]))
  = ["1"; "2"; "3"; "4"].
Proof.
  apply (original_ids_without_removal
           [Original.AddClass; Original.AddClass;
            Original.ChangeName "2" (utf16 "Physics"); Original.AddClass]).
  intros i [H | [H | [H | [H | []]]]]; discriminate.
Defined.
